(** * StaticSite: the static-site construct of [packages/resources]

    A shallow embedding of [src/packages/resources/src/StaticSite.ts]:
    the constructor of the [StaticSite] class, its input validation, the
    build-and-package step [buildApp], the deployment identifier and the
    custom resource that publishes the site.

    Strings are byte strings (a JavaScript string is taken in its UTF-8
    encoding, which is what [crypto]'s [update] hashes).  A JavaScript
    object used as a dictionary is the list of its entries in enumeration
    order.  Calls into Node ([fs], [path], [child_process]) and into the CDK
    are taken from a [Host] record; file-system state and the sequence of
    calls made are threaded explicitly.  The asset loop of [buildApp] has
    no bound in the source; here it is given a number of iterations it may
    make, and running out of them is the outcome [Diverge]. *)

From Stdlib Require Import ZArith List String Ascii Bool Arith Lia.
From Stdlib Require Import DecimalString DecimalNat FinFun.
Import ListNotations.
Open Scope string_scope.

(** ** MD5 (RFC 1321), as computed by [crypto.createHash("md5")] *)

Module MD5.

Open Scope Z_scope.

Definition wrap32 (x : Z) : Z := x mod 2 ^ 32.

Definition rotl (x : Z) (c : Z) : Z :=
  wrap32 (Z.lor (Z.shiftl x c) (Z.shiftr (wrap32 x) (32 - c))).

(** floor (2^32 * |sin (i + 1)|) for i = 0 .. 63 *)
Definition K : list Z :=
  [ 3614090360; 3905402710; 606105819; 3250441966;
    4118548399; 1200080426; 2821735955; 4249261313;
    1770035416; 2336552879; 4294925233; 2304563134;
    1804603682; 4254626195; 2792965006; 1236535329;
    4129170786; 3225465664; 643717713; 3921069994;
    3593408605; 38016083; 3634488961; 3889429448;
    568446438; 3275163606; 4107603335; 1163531501;
    2850285829; 4243563512; 1735328473; 2368359562;
    4294588738; 2272392833; 1839030562; 4259657740;
    2763975236; 1272893353; 4139469664; 3200236656;
    681279174; 3936430074; 3572445317; 76029189;
    3654602809; 3873151461; 530742520; 3299628645;
    4096336452; 1126891415; 2878612391; 4237533241;
    1700485571; 2399980690; 4293915773; 2240044497;
    1873313359; 4264355552; 2734768916; 1309151649;
    4149444226; 3174756917; 718787259; 3951481745 ].

Definition S : list Z :=
  [ 7; 12; 17; 22; 7; 12; 17; 22; 7; 12; 17; 22; 7; 12; 17; 22;
    5; 9; 14; 20; 5; 9; 14; 20; 5; 9; 14; 20; 5; 9; 14; 20;
    4; 11; 16; 23; 4; 11; 16; 23; 4; 11; 16; 23; 4; 11; 16; 23;
    6; 10; 15; 21; 6; 10; 15; 21; 6; 10; 15; 21; 6; 10; 15; 21 ].

Definition lnot32 (x : Z) : Z := Z.lxor x (2 ^ 32 - 1).

Record state := mkState { sA : Z; sB : Z; sC : Z; sD : Z }.

Definition init : state :=
  mkState 0x67452301 0xefcdab89 0x98badcfe 0x10325476.

(** The mixing function and message-word index of operation [i]. *)
Definition mix (i : nat) (b c d : Z) : Z * nat :=
  if (i <? 16)%nat then
    (Z.lor (Z.land b c) (Z.land (lnot32 b) d), i)
  else if (i <? 32)%nat then
    (Z.lor (Z.land d b) (Z.land (lnot32 d) c), (5 * i + 1) mod 16)%nat
  else if (i <? 48)%nat then
    (Z.lxor (Z.lxor b c) d, (3 * i + 5) mod 16)%nat
  else
    (Z.lxor c (Z.lor b (lnot32 d)), (7 * i) mod 16)%nat.

Definition step (m : list Z) (st : state) (i : nat) : state :=
  let '(f, g) := mix i (sB st) (sC st) (sD st) in
  let f' := wrap32 (f + sA st + nth i K 0 + nth g m 0) in
  mkState (sD st) (wrap32 (sB st + rotl f' (nth i S 0))) (sB st) (sC st).

Definition compress (st : state) (m : list Z) : state :=
  let r := fold_left (step m) (seq 0 64) st in
  mkState (wrap32 (sA st + sA r)) (wrap32 (sB st + sB r))
          (wrap32 (sC st + sC r)) (wrap32 (sD st + sD r)).

(** Little-endian decoding of 32-bit words. *)
Fixpoint words (bs : list Z) : list Z :=
  match bs with
  | b0 :: b1 :: b2 :: b3 :: rest =>
      (b0 + 2 ^ 8 * b1 + 2 ^ 16 * b2 + 2 ^ 24 * b3) :: words rest
  | _ => []
  end.

Fixpoint chunks (n : nat) (ws : list Z) : list (list Z) :=
  match n with
  | O => []
  | Datatypes.S n' =>
      match ws with
      | [] => []
      | _ => firstn 16 ws :: chunks n' (skipn 16 ws)
      end
  end.

Definition le_bytes (n : nat) (x : Z) : list Z :=
  map (fun i => Z.shiftr x (8 * Z.of_nat i) mod 256) (seq 0 n).

Definition pad (msg : list Z) : list Z :=
  let len := List.length msg in
  let zeros := ((55 + 64 - len mod 64) mod 64)%nat in
  (msg ++ [128] ++ repeat 0 zeros
       ++ le_bytes 8 ((8 * Z.of_nat len) mod 2 ^ 64))%list.

Definition digest (msg : list Z) : list Z :=
  let ws := words (pad msg) in
  let st := fold_left compress (chunks (List.length ws) ws) init in
  (le_bytes 4 (sA st) ++ le_bytes 4 (sB st)
     ++ le_bytes 4 (sC st) ++ le_bytes 4 (sD st))%list.

Definition hexdigit (x : Z) : ascii :=
  nth (Z.to_nat x)
      ["0"; "1"; "2"; "3"; "4"; "5"; "6"; "7";
       "8"; "9"; "a"; "b"; "c"; "d"; "e"; "f"]%char "0"%char.

Fixpoint hex_of_bytes (bs : list Z) : string :=
  match bs with
  | [] => EmptyString
  | b :: rest =>
      String (hexdigit (b / 16)) (String (hexdigit (b mod 16)) (hex_of_bytes rest))
  end.

Definition bytes_of_string (s : string) : list Z :=
  map (fun a => Z.of_N (N_of_ascii a)) (list_ascii_of_string s).

(** [createHash("md5").update(s).digest("hex")] *)
Definition hex (s : string) : string :=
  hex_of_bytes (digest (bytes_of_string s)).

End MD5.

(** ** JavaScript values used by the construct *)

Module Js.

(** Truthiness of an optional string: [undefined] and the empty string are falsy. *)
Definition truthy (s : option string) : bool :=
  match s with
  | Some s => negb (s =? EmptyString)
  | None => false
  end.

(** [s || d] on an optional string. *)
Definition or_else (s : option string) (d : string) : string :=
  match s with
  | Some s => if s =? EmptyString then d else s
  | None => d
  end.

(** Truthiness of an optional object or array: falsy only when absent. *)
Definition defined {A : Type} (o : option A) : bool :=
  match o with Some _ => true | None => false end.

(** A dictionary object, as the list of its entries in the order
    [Object.entries] enumerates them. *)
Definition object := list (string * string).

Fixpoint get (k : string) (o : object) : option string :=
  match o with
  | [] => None
  | (k', v) :: rest => if k' =? k then Some v else get k rest
  end.

(** [o[k] = v]: an existing key keeps its place, a new key goes last. *)
Fixpoint set (k v : string) (o : object) : object :=
  match o with
  | [] => [(k, v)]
  | (k', v') :: rest =>
      if k' =? k then (k, v) :: rest else (k', v') :: set k v rest
  end.

(** [{ ...a, ...b }] *)
Definition spread (a b : object) : object :=
  fold_left (fun o kv => set (fst kv) (snd kv) o) b a.

(** [Array.prototype.join] on an array of strings. *)
Definition join (sep : string) (l : list string) : string :=
  String.concat sep l.

(** Decimal rendering of a non-negative integer inside a template
    literal. *)
Definition number (n : nat) : string :=
  NilEmpty.string_of_uint (Nat.to_uint n).

End Js.

(** ** Props *)

Inductive StaticSiteErrorOptions := REDIRECT_TO_INDEX_PAGE.

Definition StaticSiteErrorOptions_value (o : StaticSiteErrorOptions) : string :=
  match o with REDIRECT_TO_INDEX_PAGE => "REDIRECT_TO_INDEX_PAGE" end.

Record ICertificate := { certificateArn : string }.
Record IHostedZone := { hostedZoneId : string; zoneName : string }.

(** [hostedZone?: string | route53.IHostedZone] *)
Inductive HostedZoneProp :=
| ZoneName (name : string)
| ZoneConstruct (zone : IHostedZone).

Record StaticSiteDomainProps := {
  domainName : string;
  domainAlias : option string;
  hostedZone : option HostedZoneProp;
  certificate : option ICertificate;
  isExternalDomain : option bool
}.

(** [customDomain?: string | StaticSiteDomainProps] *)
Inductive CustomDomain :=
| DomainString (name : string)
| DomainProps (d : StaticSiteDomainProps).

(** [string | string[]] *)
Inductive Patterns :=
| OnePattern (p : string)
| ManyPatterns (ps : list string).

Record StaticSiteFileOption := {
  exclude : Patterns;
  include : Patterns;
  cacheControl : string
}.

Record StaticSiteReplaceProps := {
  files : string;
  search : string;
  replace : string
}.

Record BucketProps := {
  websiteIndexDocument : option string;
  websiteErrorDocument : option string
}.

Record ErrorResponse := {
  httpStatus : nat;
  responseHttpStatus : option nat;
  responsePagePath : option string
}.

Record StaticSiteCdkDistributionProps := {
  cf_certificate : option ICertificate;
  cf_domainNames : option (list string);
  cf_errorResponses : option (list ErrorResponse)
}.

(** An [errorPage] is a string or a [StaticSiteErrorOptions], itself a
    string at run time.  The jest override of the size limit is modelled
    for whole numbers of megabytes. *)
Record StaticSiteProps := {
  path : string;
  indexPage : option string;
  errorPage : option string;
  buildCommand : option string;
  buildOutput : option string;
  fileOptions : option (list StaticSiteFileOption);
  replaceValues : option (list StaticSiteReplaceProps);
  customDomain : option CustomDomain;
  s3Bucket : option BucketProps;
  cfDistribution : option StaticSiteCdkDistributionProps;
  environment : option Js.object;
  disablePlaceholder : option bool;
  jestFileSizeLimitOverride : option nat
}.

(** The [App] at the root of the construct tree, and what the scope
    contributes to the new node. *)
Record App := {
  local : bool;
  skipBuild : bool;
  buildDir : string;
  isJestTest : bool
}.

Record Scope := {
  root : App;
  stack_id : string;               (* cdk.Stack.of(this).node.id *)
  node_addr : string -> string;    (* this.node.addr, from this.node.id *)
  getLogicalId : string -> string  (* logical id of a child, from its id *)
}.

(** ** The host: Node and the CDK *)

(** The file system: the existing paths, each with its content. *)
Definition FileSystem := list (string * string).

Record Host := {
  dirname : string;                                 (* __dirname *)
  process_env : Js.object;
  path_resolve : list string -> string;
  path_join : list string -> string;
  (** Running a shell command with a working directory and an
      environment: whether it exited normally, and the file system it
      leaves. *)
  run : string -> string -> Js.object -> FileSystem -> bool * FileSystem;
  (** The CDK fingerprint of the file or directory at a path. *)
  fingerprint : FileSystem -> string -> string;
  (** Deploy-time attributes of a construct, from its id and the
      attribute's name. *)
  token : string -> string -> string
}.

(** ** Constructs created under the site *)

Record Asset := {
  asset_id : string;
  asset_path : string;
  assetHash : string;
  s3BucketName : string;
  s3ObjectKey : string
}.

Record Bucket := {
  bucket_id : string;
  bucketName : string;
  bucketArn : string;
  bucket_props : BucketProps
}.

Record LambdaFunction := {
  function_id : string;
  function_handler : string;
  function_environment : Js.object;
  functionName : string;
  functionArn : string
}.

(** The fields of the distribution that [cfDistribution] props cannot
    overwrite. *)
Record Distribution := {
  distribution_id : string;
  distributionId : string;
  distributionDomainName : string;
  domainNames : list string;
  dist_certificate : option ICertificate;
  origin_bucket : Bucket;
  originPath : string
}.

Record Source := { BucketName : string; ObjectKey : string }.

Record CustomResource := {
  serviceToken : string;
  resourceType : string;
  Sources : list Source;
  DestinationBucketName : string;
  DestinationBucketKeyPrefix : string;
  DistributionId : string;
  DistributionPaths : list string;
  FileOptions : list (list string);
  ReplaceValues : list StaticSiteReplaceProps
}.

Inductive Construct :=
| CfnOutput (id value : string)
| NewAsset (a : Asset)
| NewBucket (b : Bucket)
| AwsCliLayer (id : string)
| NewFunction (f : LambdaFunction)
| HostedZoneLookup (id name : string)
| DnsValidatedCertificate (id name : string) (zone : IHostedZone) (region : string)
| NewDistribution (d : Distribution)
| ARecord (id recordName : string) (zone : IHostedZone) (target : string)
| HttpsRedirect (id : string) (zone : IHostedZone) (recordNames : list string)
                (targetDomain : string)
| NewCustomResource (id : string) (c : CustomResource).

(** ** Effects *)

Inductive Event :=
| ExistsSync (p : string) (found : bool)
| ConsoleLog (msg : string)
| ExecSync (cmd cwd : string) (env : Js.object) (ok : bool)
| RemoveSync (p : string)
| RegisterSiteEnvironment (id sitePath stack : string)
                          (environmentOutputs : Js.object).

(** What a run of the constructor can change: the file system, the calls
    it has made so far (oldest first) and the children it has added to
    the construct tree (oldest first). *)
Record World := {
  fs : FileSystem;
  log : list Event;
  children : list Construct
}.

Inductive Outcome (A : Type) :=
| Return (a : A)
| Throw (msg : string)
| Diverge.

Arguments Return {A} a.
Arguments Throw {A} msg.
Arguments Diverge {A}.

Definition M (A : Type) : Type := World -> Outcome A * World.

Definition ret {A : Type} (a : A) : M A := fun w => (Return a, w).

Definition bind {A B : Type} (m : M A) (k : A -> M B) : M B :=
  fun w =>
    match m w with
    | (Return a, w') => k a w'
    | (Throw e, w') => (Throw e, w')
    | (Diverge, w') => (Diverge, w')
    end.

Definition throw {A : Type} (msg : string) : M A := fun w => (Throw msg, w).

Definition diverge {A : Type} : M A := fun w => (Diverge, w).

(** [try { m } catch (e) { handler e }] *)
Definition try_catch {A : Type} (m : M A) (handler : string -> M A) : M A :=
  fun w =>
    match m w with
    | (Throw e, w') => handler e w'
    | r => r
    end.

(** A computation preserves an observation of the world when running it
    never changes what is observed, whatever the outcome. *)
Definition preserves {A X : Type} (f : World -> X) (m : M A) : Prop :=
  forall w, f (snd (m w)) = f w.

Declare Scope js_scope.
Delimit Scope js_scope with js.
Notation "x <- m ;; k" := (bind m (fun x => k))
  (at level 100, m at next level, right associativity) : js_scope.
Notation "m ;;; k" := (bind m (fun _ => k))
  (at level 100, right associativity) : js_scope.
Open Scope js_scope.

Definition emit (e : Event) : M unit :=
  fun w => (Return tt, {| fs := fs w; log := log w ++ [e]; children := children w |}).

Definition add_child (c : Construct) : M unit :=
  fun w => (Return tt, {| fs := fs w; log := log w; children := children w ++ [c] |}).

Definition exists_in (f : FileSystem) (p : string) : bool :=
  existsb (fun entry => fst entry =? p) f.

(** [fs.existsSync] *)
Definition existsSync (p : string) : M bool :=
  fun w =>
    let found := exists_in (fs w) p in
    (Return found,
     {| fs := fs w; log := log w ++ [ExistsSync p found]; children := children w |}).

(** [fs.removeSync]: the path goes, and everything below it. *)
Definition removeSync (p : string) : M unit :=
  fun w =>
    let keep entry :=
      negb (fst entry =? p) && negb (prefix (p ++ "/") (fst entry)) in
    (Return tt,
     {| fs := filter keep (fs w); log := log w ++ [RemoveSync p];
        children := children w |}).

(** [execSync(cmd, { cwd, env })]: throws when the command fails. *)
Definition execSync (h : Host) (cmd cwd : string) (env : Js.object) : M unit :=
  fun w =>
    let '(ok, fs') := run h cmd cwd env (fs w) in
    let w' := {| fs := fs'; log := log w ++ [ExecSync cmd cwd env ok];
                 children := children w |} in
    if ok then (Return tt, w') else (Throw ("Command failed: " ++ cmd), w').

Definition console_log (msg : string) : M unit := emit (ConsoleLog msg).

(** [new s3Assets.Asset(this, id, { path })] *)
Definition new_Asset (h : Host) (id p : string) : M Asset :=
  fun w =>
    let hash := fingerprint h (fs w) p in
    let a := {| asset_id := id; asset_path := p; assetHash := hash;
                s3BucketName := token h id "s3BucketName";
                s3ObjectKey := token h id "s3ObjectKey" |} in
    (Return a,
     {| fs := fs w; log := log w; children := children w ++ [NewAsset a] |}).

(** ** The [StaticSite] class *)

Definition dquote : string := String "034"%char EmptyString.

(** A value between double quotes, as the error messages print it. *)
Definition quoted (s : string) : string := dquote ++ s ++ dquote.

Record StaticSite := {
  this_id : string;                               (* this.node.id *)
  this_props : StaticSiteProps;
  this_environment : Js.object;
  this_replaceValues : list StaticSiteReplaceProps;
  this_assets : list Asset;
  this_deployId : string;
  this_s3Bucket : Bucket;
  this_customResourceFn : LambdaFunction;
  this_hostedZone : option IHostedZone;
  this_acmCertificate : option ICertificate;
  this_cfDistribution : Distribution
}.

(** *** Environment placeholders *)

Definition placeholder (key : string) : string := "{{ " ++ key ++ " }}".

Record Placeholders := {
  ph_environment : Js.object;                          (* this.environment *)
  ph_replaceValues : list StaticSiteReplaceProps;      (* this.replaceValues *)
  ph_environmentOutputs : Js.object
}.

(** The body of the loop over [Object.entries(props.environment || {})]. *)
Fixpoint placeholders (scope : Scope) (entries : list (string * string))
    (acc : Placeholders) : M Placeholders :=
  match entries with
  | [] => ret acc
  | (key, value) :: rest =>
      let token := placeholder key in
      let outputId := "SstStaticSiteEnv_" ++ key in
      add_child (CfnOutput outputId value) ;;;
      placeholders scope rest
        {| ph_environment := Js.set key token (ph_environment acc);
           ph_replaceValues :=
             (ph_replaceValues acc
                ++ [ {| files := "**/*.js"; search := token; replace := value |};
                     {| files := "index.html"; search := token; replace := value |} ])%list;
           ph_environmentOutputs :=
             Js.set key (getLogicalId scope outputId) (ph_environmentOutputs acc) |}
  end.

(** *** Input validation *)

Definition customDomain_truthy (c : option CustomDomain) : bool :=
  match c with
  | None => false
  | Some (DomainString name) => negb (name =? EmptyString)
  | Some (DomainProps _) => true
  end.

Definition hostedZone_truthy (z : option HostedZoneProp) : bool :=
  match z with
  | None => false
  | Some (ZoneName name) => negb (name =? EmptyString)
  | Some (ZoneConstruct _) => true
  end.

Definition is_true (b : option bool) : bool :=
  match b with Some true => true | _ => false end.

Definition certificate_required : string :=
  "A valid certificate is required when " ++ quoted "isExternalDomain"
    ++ " is set to " ++ quoted "true" ++ ".".

Definition domainAlias_unsupported : string :=
  "Domain alias is only supported for domains hosted on Amazon Route 53. Do not set the "
    ++ quoted "customDomain.domainAlias" ++ " when " ++ quoted "isExternalDomain"
    ++ " is enabled.".

Definition hostedZone_unsupported : string :=
  "Hosted zones can only be configured for domains hosted on Amazon Route 53. Do not set the "
    ++ quoted "customDomain.hostedZone" ++ " when " ++ quoted "isExternalDomain"
    ++ " is enabled.".

Definition validateCustomDomainSettings (props : StaticSiteProps) : M unit :=
  match customDomain props with
  | None => ret tt
  | Some (DomainString _) => ret tt
  | Some (DomainProps d) =>
      if is_true (isExternalDomain d) then
        if negb (Js.defined (certificate d)) then throw certificate_required
        else if Js.truthy (domainAlias d) then throw domainAlias_unsupported
        else if hostedZone_truthy (hostedZone d) then throw hostedZone_unsupported
        else ret tt
      else ret tt
  end.

(** *** Building and packaging the site *)

Definition no_path_found (h : Host) (id sitePath : string) : string :=
  "No path found at " ++ quoted (path_resolve h [sitePath]) ++ " for the "
    ++ quoted id ++ " StaticSite.".

Definition build_problem (id : string) : string :=
  "There was a problem building the " ++ quoted id ++ " StaticSite.".

Definition no_build_output (id siteOutputPath : string) : string :=
  "No build output found at " ++ quoted siteOutputPath ++ " for the "
    ++ quoted id ++ " StaticSite.".

Definition package_problem (id : string) : string :=
  "There was a problem generating the " ++ quoted id ++ " StaticSite package.".

Definition zipFilePath (h : Host) (zipPath : string) (partId : nat) : string :=
  path_join h [zipPath; "part" ++ Js.number partId ++ ".zip"].

(** The loop [for (let partId = 0; ; partId++)]: it has no bound of its
    own, so the model counts the iterations it may still make and
    diverges when none is left. *)
Fixpoint createAssets (h : Host) (zipPath : string) (fuel partId : nat)
    (assets : list Asset) : M (list Asset) :=
  match fuel with
  | O => diverge
  | S fuel' =>
      found <- existsSync (zipFilePath h zipPath partId) ;;
      if negb found then ret assets
      else
        a <- new_Asset h ("Asset" ++ Js.number partId) (zipFilePath h zipPath partId) ;;
        createAssets h zipPath fuel' (S partId) (assets ++ [a])%list
  end.

Definition stubPath (h : Host) : string :=
  path_resolve h [dirname h; "../assets/StaticSite/stub"].

Definition siteOutputPath (h : Host) (props : StaticSiteProps) : string :=
  path_resolve h [path_join h [path props; Js.or_else (buildOutput props) "."]].

Definition zipPath (h : Host) (scope : Scope) (id buildDir : string) : string :=
  path_resolve h
    [path_join h [buildDir; "StaticSite-" ++ id ++ "-" ++ node_addr scope id]].

Definition archiverCommand (h : Host) (scope : Scope) (id : string)
    (props : StaticSiteProps) (fileSizeLimit : nat) (buildDir : string) : string :=
  Js.join " "
    [ "node"; path_join h [dirname h; "../assets/StaticSite/archiver.js"];
      siteOutputPath h props; zipPath h scope id buildDir; Js.number fileSizeLimit ].

Definition buildApp (h : Host) (scope : Scope) (id : string)
    (props : StaticSiteProps) (environment : Js.object)
    (fileSizeLimit : nat) (buildDir : string) (isSstStart skipBuild : bool)
    (fuel : nat) : M (list Asset) :=
  if isSstStart || skipBuild then
    a <- new_Asset h "Asset" (stubPath h) ;;
    ret [a]
  else
    let sitePath := path props in
    found <- existsSync sitePath ;;
    if negb found then throw (no_path_found h id sitePath)
    else
      (match buildCommand props with
       | Some cmd =>
           if Js.truthy (Some cmd) then
             try_catch
               (console_log ("Building static site " ++ sitePath) ;;;
                execSync h cmd sitePath (Js.spread (process_env h) environment))
               (fun _ => throw (build_problem id))
           else ret tt
       | None => ret tt
       end) ;;;
      found <- existsSync (siteOutputPath h props) ;;
      if negb found then throw (no_build_output id (siteOutputPath h props))
      else
        removeSync (zipPath h scope id buildDir) ;;;
        try_catch
          (execSync h (archiverCommand h scope id props fileSizeLimit buildDir)
                    sitePath (process_env h))
          (fun _ => throw (package_problem id)) ;;;
        createAssets h (zipPath h scope id buildDir) fuel 0 [].

(** *** The deployment identifier *)

Definition assetsHash (assets : list Asset) : string :=
  MD5.hex (Js.join EmptyString (map assetHash assets)).

Definition deployId (isSstStart : bool) (assets : list Asset) : string :=
  if isSstStart then "deploy-live" else "deploy-" ++ assetsHash assets.

(** *** Bucket, uploader functions, hosted zone and certificate *)

Definition createS3Bucket (h : Host) (props : StaticSiteProps) : M Bucket :=
  let s3Bucket :=
    match s3Bucket props with
    | Some b => b
    | None => {| websiteIndexDocument := None; websiteErrorDocument := None |}
    end in
  if Js.truthy (websiteIndexDocument s3Bucket) then
    throw ("Do not configure the " ++ quoted "s3Bucket.websiteIndexDocument"
             ++ ". Use the " ++ quoted "indexPage"
             ++ " to configure the StaticSite index page.")
  else if Js.truthy (websiteErrorDocument s3Bucket) then
    throw ("Do not configure the " ++ quoted "s3Bucket.websiteErrorDocument"
             ++ ". Use the " ++ quoted "errorPage"
             ++ " to configure the StaticSite index page.")
  else
    let b := {| bucket_id := "Bucket";
                bucketName := token h "Bucket" "bucketName";
                bucketArn := token h "Bucket" "bucketArn";
                bucket_props := s3Bucket |} in
    add_child (NewBucket b) ;;;
    ret b.

Definition new_Function (h : Host) (id handler : string) (env : Js.object)
    : M LambdaFunction :=
  let f := {| function_id := id; function_handler := handler;
              function_environment := env;
              functionName := token h id "functionName";
              functionArn := token h id "functionArn" |} in
  add_child (NewFunction f) ;;;
  ret f.

(** The two Lambda functions behind the custom resource.  The grants on
    the bucket and the assets and the invalidation policy are IAM
    statements on these functions and are left out. *)
Definition createCustomResourceFunction (h : Host) : M LambdaFunction :=
  add_child (AwsCliLayer "AwsCliLayer") ;;;
  uploader <- new_Function h "CustomResourceUploader" "s3-upload.handler" [] ;;
  new_Function h "CustomResourceHandler" "index.handler"
    [("UPLOADER_FUNCTION_NAME", functionName uploader)].

(** [route53.HostedZone.fromLookup(this, "HostedZone", { domainName })] *)
Definition fromLookup (h : Host) (name : string) : M (option IHostedZone) :=
  add_child (HostedZoneLookup "HostedZone" name) ;;;
  ret (Some {| hostedZoneId := token h "HostedZone" "hostedZoneId";
               zoneName := name |}).

Definition lookupHostedZone (h : Host) (props : StaticSiteProps)
    : M (option IHostedZone) :=
  if negb (customDomain_truthy (customDomain props)) then ret None
  else
    match customDomain props with
    | None => ret None
    | Some (DomainString name) => fromLookup h name
    | Some (DomainProps d) =>
        match hostedZone d with
        | Some (ZoneConstruct zone) => ret (Some zone)
        | Some (ZoneName name) => fromLookup h name
        | None =>
            if is_true (isExternalDomain d) then ret None
            else fromLookup h (domainName d)
        end
    end.

Definition new_DnsValidatedCertificate (h : Host) (name : string)
    (zone : IHostedZone) : M (option ICertificate) :=
  add_child (DnsValidatedCertificate "Certificate" name zone "us-east-1") ;;;
  ret (Some {| certificateArn := token h "Certificate" "certificateArn" |}).

Definition createCertificate (h : Host) (props : StaticSiteProps)
    (hostedZone : option IHostedZone) : M (option ICertificate) :=
  if negb (customDomain_truthy (customDomain props)) then ret None
  else
    match customDomain props, hostedZone with
    | None, _ => ret None
    | Some (DomainString name), Some zone => new_DnsValidatedCertificate h name zone
    | Some (DomainProps d), Some zone =>
        match certificate d with
        | Some c => ret (Some c)
        | None => new_DnsValidatedCertificate h (domainName d) zone
        end
    | Some (DomainString _), None => ret None
    | Some (DomainProps d), None => ret (certificate d)
    end.

(** *** The distribution *)

Definition createCfDistribution (h : Host) (props : StaticSiteProps)
    (deployId : string) (s3Bucket : Bucket)
    (acmCertificate : option ICertificate)
    (isSstStart disablePlaceholder : bool) : M Distribution :=
  let cfDistributionProps :=
    match cfDistribution props with
    | Some c => c
    | None => {| cf_certificate := None; cf_domainNames := None;
                 cf_errorResponses := None |}
    end in
  if Js.defined (cf_certificate cfDistributionProps) then
    throw ("Do not configure the " ++ quoted "cfDistribution.certificate"
             ++ ". Use the " ++ quoted "customDomain"
             ++ " to configure the StaticSite domain certificate.")
  else if Js.defined (cf_domainNames cfDistributionProps) then
    throw ("Do not configure the " ++ quoted "cfDistribution.domainNames"
             ++ ". Use the " ++ quoted "customDomain"
             ++ " to configure the StaticSite domain.")
  else
    let domainNames :=
      if negb (customDomain_truthy (customDomain props)) then []
      else
        match customDomain props with
        | None => []
        | Some (DomainString name) => [name]
        | Some (DomainProps d) => [domainName d]
        end in
    (if isSstStart && negb disablePlaceholder then ret tt
     else if Js.truthy (errorPage props) then
       if Js.defined (cf_errorResponses cfDistributionProps) then
         throw ("Cannot configure the " ++ quoted "cfDistribution.errorResponses"
                  ++ " when " ++ quoted "errorPage"
                  ++ " is passed in. Use one or the other to configure the behavior for error pages.")
       else ret tt
     else ret tt) ;;;
    let d := {| distribution_id := "Distribution";
                distributionId := token h "Distribution" "distributionId";
                distributionDomainName :=
                  token h "Distribution" "distributionDomainName";
                domainNames := domainNames;
                dist_certificate := acmCertificate;
                origin_bucket := s3Bucket;
                originPath := deployId |} in
    add_child (NewDistribution d) ;;;
    ret d.

Definition createRoute53Records (props : StaticSiteProps)
    (hostedZone : option IHostedZone) (cfDistribution : Distribution) : M unit :=
  if negb (customDomain_truthy (customDomain props)) then ret tt
  else
    match customDomain props, hostedZone with
    | Some c, Some zone =>
        let recordName :=
          match c with DomainString name => name | DomainProps d => domainName d end in
        let domainAlias :=
          match c with DomainString _ => None | DomainProps d => domainAlias d end in
        add_child (ARecord "AliasRecord" recordName zone
                           (distributionDomainName cfDistribution)) ;;;
        match domainAlias with
        | Some alias =>
            if Js.truthy (Some alias) then
              add_child (HttpsRedirect "Redirect" zone [alias] recordName)
            else ret tt
        | None => ret tt
        end
    | _, _ => ret tt
    end.

(** *** The custom resource that publishes the site *)

Definition patterns (p : Patterns) : list string :=
  match p with
  | OnePattern s => [s]
  | ManyPatterns l => l
  end.

Definition fileOption_args (o : StaticSiteFileOption) : list string :=
  (flat_map (fun per => ["--exclude"; per]) (patterns (exclude o))
     ++ flat_map (fun per => ["--include"; per]) (patterns (include o))
     ++ ["--cache-control"; cacheControl o])%list.

Definition createS3Deployment (props : StaticSiteProps)
    (customResourceFn : LambdaFunction) (assets : list Asset)
    (s3Bucket : Bucket) (deployId : string) (cfDistribution : Distribution)
    (replaceValues : list StaticSiteReplaceProps) : M unit :=
  add_child
    (NewCustomResource "CustomResource"
       {| serviceToken := functionArn customResourceFn;
          resourceType := "Custom::SSTBucketDeployment";
          Sources :=
            map (fun asset => {| BucketName := s3BucketName asset;
                                 ObjectKey := s3ObjectKey asset |}) assets;
          DestinationBucketName := bucketName s3Bucket;
          DestinationBucketKeyPrefix := deployId;
          DistributionId := distributionId cfDistribution;
          DistributionPaths := ["/*"];
          FileOptions :=
            map fileOption_args
                (match fileOptions props with Some l => l | None => [] end);
          ReplaceValues := replaceValues |}).

(** *** The constructor *)

Definition fileSizeLimit (rt : App) (props : StaticSiteProps) : nat :=
  if isJestTest rt then
    match jestFileSizeLimitOverride props with
    | Some (S n) => S n
    | _ => 200
    end
  else 200.

(** [props.environment || {}] *)
Definition environment_or_empty (props : StaticSiteProps) : Js.object :=
  match environment props with Some o => o | None => [] end.

(** [props.replaceValues || []] *)
Definition replaceValues_or_empty (props : StaticSiteProps)
    : list StaticSiteReplaceProps :=
  match replaceValues props with Some l => l | None => [] end.

(** [props.disablePlaceholder || false] *)
Definition disablePlaceholder_or_false (props : StaticSiteProps) : bool :=
  match disablePlaceholder props with Some b => b | None => false end.

(** [this.environment] and [this.replaceValues] start as the very objects
    of the props, which the loop then updates; the loop itself runs over
    the entries [Object.entries] read before the first update. *)
Definition initial_placeholders (props : StaticSiteProps) : Placeholders :=
  {| ph_environment := environment_or_empty props;
     ph_replaceValues := replaceValues_or_empty props;
     ph_environmentOutputs := [] |}.

Definition construct (h : Host) (scope : Scope) (id : string)
    (props : StaticSiteProps) (fuel : nat) : M StaticSite :=
  let rt := root scope in
  let isSstStart := local rt in
  let disablePlaceholder := disablePlaceholder_or_false props in
  ph <- placeholders scope (environment_or_empty props)
          (initial_placeholders props) ;;
  emit (RegisterSiteEnvironment id (path props) (stack_id scope)
                                (ph_environmentOutputs ph)) ;;;
  validateCustomDomainSettings props ;;;
  assets <- buildApp h scope id props (ph_environment ph)
              (fileSizeLimit rt props) (buildDir rt) isSstStart (skipBuild rt)
              fuel ;;
  let deployId := deployId isSstStart assets in
  s3Bucket <- createS3Bucket h props ;;
  customResourceFn <- createCustomResourceFunction h ;;
  hostedZone <- lookupHostedZone h props ;;
  acmCertificate <- createCertificate h props hostedZone ;;
  cfDistribution <- createCfDistribution h props deployId s3Bucket
                      acmCertificate isSstStart disablePlaceholder ;;
  createRoute53Records props hostedZone cfDistribution ;;;
  createS3Deployment props customResourceFn assets s3Bucket deployId
                     cfDistribution (ph_replaceValues ph) ;;;
  ret {| this_id := id;
         this_props := props;
         this_environment := ph_environment ph;
         this_replaceValues := ph_replaceValues ph;
         this_assets := assets;
         this_deployId := deployId;
         this_s3Bucket := s3Bucket;
         this_customResourceFn := customResourceFn;
         this_hostedZone := hostedZone;
         this_acmCertificate := acmCertificate;
         this_cfDistribution := cfDistribution |}.

(** ** Reading the results *)

(** [hay.includes(needle)] *)
Fixpoint includes (needle hay : string) : bool :=
  prefix needle hay
  || match hay with
     | EmptyString => false
     | String _ rest => includes needle rest
     end.

(** The children of one kind, oldest first. *)
Fixpoint select {X : Type} (pick : Construct -> option X) (cs : list Construct)
    : list X :=
  match cs with
  | [] => []
  | c :: rest =>
      match pick c with
      | Some x => x :: select pick rest
      | None => select pick rest
      end
  end.

Definition as_customResource (c : Construct) : option CustomResource :=
  match c with NewCustomResource _ r => Some r | _ => None end.

Definition as_distribution (c : Construct) : option Distribution :=
  match c with NewDistribution d => Some d | _ => None end.

Definition customResources (w : World) : list CustomResource :=
  select as_customResource (children w).

Definition distributions (w : World) : list Distribution :=
  select as_distribution (children w).

(** The properties of the custom resource, read off a constructed site. *)
Definition publish_request (site : StaticSite) : CustomResource :=
  {| serviceToken := functionArn (this_customResourceFn site);
     resourceType := "Custom::SSTBucketDeployment";
     Sources :=
       map (fun asset => {| BucketName := s3BucketName asset;
                            ObjectKey := s3ObjectKey asset |})
           (this_assets site);
     DestinationBucketName := bucketName (this_s3Bucket site);
     DestinationBucketKeyPrefix := this_deployId site;
     DistributionId := distributionId (this_cfDistribution site);
     DistributionPaths := ["/*"];
     FileOptions :=
       map fileOption_args
           (match fileOptions (this_props site) with Some l => l | None => [] end);
     ReplaceValues := this_replaceValues site |}.

(** The asset the construct makes of a path in a given file system. *)
Definition asset_of (h : Host) (f : FileSystem) (id p : string) : Asset :=
  {| asset_id := id; asset_path := p; assetHash := fingerprint h f p;
     s3BucketName := token h id "s3BucketName";
     s3ObjectKey := token h id "s3ObjectKey" |}.

(** The probes the asset loop makes when parts [k .. k + n - 1] exist and
    part [k + n] does not. *)
Definition probes (h : Host) (zp : string) (k n : nat) : list Event :=
  (map (fun i => ExistsSync (zipFilePath h zp i) true) (seq k n)
     ++ [ExistsSync (zipFilePath h zp (k + n)) false])%list.

(** The build step of [buildApp] seen as a function on the file system:
    whether the configured build command (if any) exited normally, and
    the file system it leaves. *)
Definition build_step (h : Host) (props : StaticSiteProps)
    (environment : Js.object) (f : FileSystem) : bool * FileSystem :=
  match buildCommand props with
  | Some cmd =>
      if Js.truthy (Some cmd) then
        run h cmd (path props) (Js.spread (process_env h) environment) f
      else (true, f)
  | None => (true, f)
  end.

(** The calls the build step makes. *)
Definition build_events (h : Host) (props : StaticSiteProps)
    (environment : Js.object) (f : FileSystem) : list Event :=
  match buildCommand props with
  | Some cmd =>
      if Js.truthy (Some cmd) then
        [ ConsoleLog ("Building static site " ++ path props);
          ExecSync cmd (path props) (Js.spread (process_env h) environment)
                   (fst (build_step h props environment f)) ]
      else []
  | None => []
  end.

(** The archiver run of [buildApp] seen as a function on the file
    system left by the build step. *)
Definition archive_step (h : Host) (scope : Scope) (id : string)
    (props : StaticSiteProps) (limit : nat) (dir : string) (f : FileSystem)
    : bool * FileSystem :=
  let zp := zipPath h scope id dir in
  run h (archiverCommand h scope id props limit dir) (path props) (process_env h)
      (filter (fun entry => negb (fst entry =? zp) && negb (prefix (zp ++ "/") (fst entry))) f).

(** The files below a directory. *)
Definition files_below (f : FileSystem) (dir : string) : FileSystem :=
  filter (fun entry => prefix (dir ++ "/") (fst entry)) f.

(** ** The resolver and the rule compiler, in the words of the design *)

(** Dev mode gives the sentinel; otherwise the fingerprints are
    concatenated in order, hashed, and the hash is prefixed. *)
Definition resolve (fingerprints : list string) (devMode : bool) : string :=
  if devMode then "deploy-live"
  else "deploy-" ++ MD5.hex (fold_right append EmptyString fingerprints).

(** Two rules per declared variable: one for script assets, one for the
    entry document, both replacing the token [{{ NAME }}] by the value. *)
Definition compile (envVars : list (string * string)) : list StaticSiteReplaceProps :=
  flat_map
    (fun kv =>
       [ {| files := "**/*.js";
            search := "{{" ++ " " ++ fst kv ++ " " ++ "}}";
            replace := snd kv |};
         {| files := "index.html";
            search := "{{" ++ " " ++ fst kv ++ " " ++ "}}";
            replace := snd kv |} ])
    envVars.

(** ** A sample host *)

Module Sample.

Fixpoint split (sep : ascii) (s cur : string) : list string :=
  match s with
  | EmptyString => [cur]
  | String c rest =>
      if (c =? sep)%char then cur :: split sep rest EmptyString
      else split sep rest (cur ++ String c EmptyString)
  end.

(** POSIX paths, enough for the absolute paths used below. *)
Definition normalize (segs : list string) : list string :=
  rev (fold_left
         (fun stack seg =>
            if (seg =? EmptyString) || (seg =? ".") then stack
            else if seg =? ".." then tl stack
            else seg :: stack)
         segs []).

Definition absolute (s : string) : string :=
  "/" ++ String.concat "/" (normalize (split "/" s EmptyString)).

Definition join (l : list string) : string :=
  absolute (String.concat "/" l).

Definition resolve_from (cwd : string) (l : list string) : string :=
  absolute
    (fold_left (fun acc seg => if prefix "/" seg then seg else acc ++ "/" ++ seg)
               l cwd).

Definition content_of (f : FileSystem) (p : string) : string :=
  match find (fun entry => fst entry =? p) f with
  | Some entry => snd entry
  | None => EmptyString
  end.

(** A stand-in for the CDK fingerprint: a digest of the content at the
    path and below it. *)
Definition digest_below (f : FileSystem) (p : string) : string :=
  MD5.hex (content_of f p
             ++ String.concat EmptyString (map snd (files_below f p))).

Fixpoint number_from (k : nat) (l : FileSystem) : list (nat * string) :=
  match l with
  | [] => []
  | entry :: rest => (k, snd entry) :: number_from (S k) rest
  end.

(** A shell with two commands: [npm run build], which writes the site
    into [build] and fails when [FAIL_BUILD] is set, and [node <script>
    <site> <zip> <limit>], which packs every file below [<site>] into a
    part of its own under [<zip>]. *)
Definition shell (cmd cwd : string) (env : Js.object) (f : FileSystem)
    : bool * FileSystem :=
  if cmd =? "npm run build" then
    match Js.get "FAIL_BUILD" env with
    | Some _ => (false, f)
    | None =>
        (true,
         List.app f
           [ (cwd ++ "/build", EmptyString);
             (cwd ++ "/build/index.html", "<script src='main.js'></script>");
             (cwd ++ "/build/main.js",
              "api = '" ++ Js.or_else (Js.get "API_URL" env) "?" ++ "'") ])
    end
  else
    match split " " cmd EmptyString with
    | [node; script; site; zip; limit] =>
        if node =? "node" then
          (true,
           List.app f
             ((zip, EmptyString)
                :: map (fun part =>
                          (zip ++ "/part" ++ Js.number (fst part) ++ ".zip",
                           snd part))
                       (number_from 0 (files_below f site))))
        else (false, f)
    | _ => (false, f)
    end.

Definition host : Host :=
  {| dirname := "/sst/resources/dist";
     process_env := [("PATH", "/usr/bin")];
     path_resolve := resolve_from "/work";
     path_join := join;
     run := shell;
     fingerprint := digest_below;
     token := fun id attribute => "${" ++ id ++ "." ++ attribute ++ "}" |}.

Definition the_app (isLocal skip : bool) : App :=
  {| local := isLocal; skipBuild := skip; buildDir := "/work/.build";
     isJestTest := false |}.

Definition scope (isLocal skip : bool) : Scope :=
  {| root := the_app isLocal skip;
     stack_id := "dev-app-stack";
     node_addr := fun id => "c8a1";
     getLogicalId := fun id => "Frontend" ++ id |}.

Definition props : StaticSiteProps :=
  {| path := "/site";
     indexPage := None;
     errorPage := None;
     buildCommand := Some "npm run build";
     buildOutput := Some "build";
     fileOptions :=
       Some [ {| exclude := OnePattern "*";
                 include := ManyPatterns ["*.html"; "*.js"];
                 cacheControl := "max-age=0" |} ];
     replaceValues :=
       Some [ {| files := "*.css"; search := "COLOR"; replace := "red" |} ];
     customDomain := None;
     s3Bucket := None;
     cfDistribution := None;
     environment := Some [("API_URL", "https://api.example.com")];
     disablePlaceholder := None;
     jestFileSizeLimitOverride := None |}.

(** The same site, already built, with nothing in its output directory
    and no build command. *)
Definition props_prebuilt : StaticSiteProps :=
  {| path := "/site";
     indexPage := None;
     errorPage := None;
     buildCommand := None;
     buildOutput := Some "build";
     fileOptions := None;
     replaceValues := None;
     customDomain := None;
     s3Bucket := None;
     cfDistribution := None;
     environment := None;
     disablePlaceholder := None;
     jestFileSizeLimitOverride := None |}.

Definition world : World :=
  {| fs := [ ("/site", EmptyString);
             ("/site/package.json", "{}");
             ("/sst/resources/assets/StaticSite/stub", EmptyString);
             ("/sst/resources/assets/StaticSite/stub/index.html", "placeholder") ];
     log := [];
     children := [] |}.

Definition world_empty_output : World :=
  {| fs := [ ("/site", EmptyString); ("/site/build", EmptyString) ];
     log := [];
     children := [] |}.


Definition world_no_site : World :=
  {| fs := []; log := []; children := [] |}.

(** A structured custom domain hosted outside Route 53. *)
Definition external_domain (alias : option string)
    (zone : option HostedZoneProp) (cert : option ICertificate)
    : StaticSiteDomainProps :=
  {| domainName := "www.example.com";
     domainAlias := alias;
     hostedZone := zone;
     certificate := cert;
     isExternalDomain := Some true |}.

Definition with_domain (c : option CustomDomain) : StaticSiteProps :=
  {| path := "/site";
     indexPage := None;
     errorPage := None;
     buildCommand := None;
     buildOutput := None;
     fileOptions := None;
     replaceValues := None;
     customDomain := c;
     s3Bucket := None;
     cfDistribution := None;
     environment := None;
     disablePlaceholder := None;
     jestFileSizeLimitOverride := None |}.

(** Two texts of 72 characters that differ in one character and have
    the same MD5 digest. *)
Definition text1 : string :=
  "TEXTCOLLBYfGiJUETHQ4hAcKSMd5zYpgqf1YRDhkmxHkhPWptrkoyz28wnI9V0aHeAuaKnak".

Definition text2 : string :=
  "TEXTCOLLBYfGiJUETHQ4hEcKSMd5zYpgqf1YRDhkmxHkhPWptrkoyz28wnI9V0aHeAuaKnak".

Definition hashed (fingerprint : string) : Asset :=
  {| asset_id := "Asset0"; asset_path := "/work/.build/part0.zip";
     assetHash := fingerprint;
     s3BucketName := "staging"; s3ObjectKey := fingerprint ++ ".zip" |}.

End Sample.

(** ** The getters of the class *)

Module Getters.

Definition url (site : StaticSite) : string :=
  "https://" ++ distributionDomainName (this_cfDistribution site).

Definition customDomainUrl (site : StaticSite) : option string :=
  if negb (customDomain_truthy (customDomain (this_props site))) then None
  else
    match customDomain (this_props site) with
    | None => None
    | Some (DomainString name) => Some ("https://" ++ name)
    | Some (DomainProps d) => Some ("https://" ++ domainName d)
    end.

Definition bucketArn (site : StaticSite) : string :=
  bucketArn (this_s3Bucket site).

Definition bucketName (site : StaticSite) : string :=
  bucketName (this_s3Bucket site).

Definition distributionId (site : StaticSite) : string :=
  distributionId (this_cfDistribution site).

Definition distributionDomain (site : StaticSite) : string :=
  distributionDomainName (this_cfDistribution site).

End Getters.

(** ** More ways to read the results *)

(** A computation adds a list of constructs when, from every world, it
    leaves the children of that world followed by the list. *)
Definition adds {A : Type} (m : M A) (l : list Construct) : Prop :=
  forall w, children (snd (m w)) = (children w ++ l)%list.

(** The constructs that involve Route 53 or certificate validation. *)
Definition as_dns (c : Construct) : option Construct :=
  match c with
  | HostedZoneLookup _ _ => Some c
  | DnsValidatedCertificate _ _ _ _ => Some c
  | ARecord _ _ _ _ => Some c
  | HttpsRedirect _ _ _ _ => Some c
  | _ => None
  end.

Definition as_asset (c : Construct) : option Asset :=
  match c with NewAsset a => Some a | _ => None end.

(** What a computation can do outside the construct tree. *)
Definition calls (w : World) : FileSystem * list Event := (fs w, log w).

Definition is_hex (c : ascii) : bool :=
  existsb (Ascii.eqb c)
          ["0"; "1"; "2"; "3"; "4"; "5"; "6"; "7";
           "8"; "9"; "a"; "b"; "c"; "d"; "e"; "f"]%char.

Fixpoint all_chars (p : ascii -> bool) (s : string) : bool :=
  match s with
  | EmptyString => true
  | String c rest => p c && all_chars p rest
  end.

(** The outputs, one per entry of the environment. *)
Definition environment_outputs (props : StaticSiteProps) : list Construct :=
  map (fun kv => CfnOutput ("SstStaticSiteEnv_" ++ fst kv) (snd kv))
      (environment_or_empty props).

(** The function [createCustomResourceFunction] makes first. *)
Definition uploader (h : Host) : LambdaFunction :=
  {| function_id := "CustomResourceUploader";
     function_handler := "s3-upload.handler";
     function_environment := [];
     functionName := token h "CustomResourceUploader" "functionName";
     functionArn := token h "CustomResourceUploader" "functionArn" |}.

(** A computation that returns or throws from every world. *)
Definition settles {A : Type} (m : M A) : Prop :=
  forall w, fst (m w) <> Diverge.


(** [s3Bucket || {}] and [cfDistribution || {}] *)
Definition s3Bucket_or_empty (props : StaticSiteProps) : BucketProps :=
  match s3Bucket props with
  | Some b => b
  | None => {| websiteIndexDocument := None; websiteErrorDocument := None |}
  end.

Definition cfDistribution_or_empty (props : StaticSiteProps)
    : StaticSiteCdkDistributionProps :=
  match cfDistribution props with
  | Some c => c
  | None => {| cf_certificate := None; cf_domainNames := None;
               cf_errorResponses := None |}
  end.

(** The domain name the props configure, if any. *)
Definition configured_domain (props : StaticSiteProps) : option string :=
  if negb (customDomain_truthy (customDomain props)) then None
  else
    match customDomain props with
    | None => None
    | Some (DomainString name) => Some name
    | Some (DomainProps d) => Some (domainName d)
    end.

(** A host that joins paths by writing a slash between them. *)
Module Flat.

Definition host : Host :=
  {| dirname := "/sst/resources/dist";
     process_env := [("PATH", "/usr/bin"); ("HOME", "/root")];
     path_resolve := String.concat "/";
     path_join := String.concat "/";
     run := fun cmd cwd env f => (true, f);
     fingerprint := fun f p => p;
     token := fun id attribute => id ++ "." ++ attribute |}.

Definition world : World :=
  {| fs := [ ("/zip", EmptyString); ("/zip/part0.zip", "a");
             ("/zip/part1.zip", "b"); ("/zip/part3.zip", "c") ];
     log := [];
     children := [] |}.

(** A site that was built before: its output is there, and so is a
    part of an earlier package. *)
Definition props : StaticSiteProps :=
  {| path := "/site";
     indexPage := None;
     errorPage := None;
     buildCommand := None;
     buildOutput := Some "build";
     fileOptions := None;
     replaceValues := None;
     customDomain := None;
     s3Bucket := None;
     cfDistribution := None;
     environment := None;
     disablePlaceholder := None;
     jestFileSizeLimitOverride := None |}.

Definition world_with_stale_part : World :=
  {| fs := [ ("/site", EmptyString); ("/site/build", EmptyString);
             ("/work/.build/StaticSite-Site-c8a1", EmptyString);
             ("/work/.build/StaticSite-Site-c8a1/part0.zip", "old") ];
     log := [];
     children := [] |}.

End Flat.

(** ** Fingerprints as the CDK makes them *)






(** * Properties *)

(** ** The monad *)

Lemma bind_Return_inv {A B : Type} (m : M A) (k : A -> M B) w b w' :
  bind m k w = (Return b, w') ->
  exists a w1, m w = (Return a, w1) /\ k a w1 = (Return b, w').
Proof.
  unfold bind. destruct (m w) as [[a | e |] w1]; intros H; try discriminate.
  exists a, w1. split; [reflexivity | exact H].
Qed.

Lemma bind_Return {A B : Type} (m : M A) (k : A -> M B) w a w1 :
  m w = (Return a, w1) -> bind m k w = k a w1.
Proof. intros H. unfold bind. rewrite H. reflexivity. Qed.

Lemma bind_Throw {A B : Type} (m : M A) (k : A -> M B) w e w1 :
  m w = (Throw e, w1) -> bind m k w = (Throw e, w1).
Proof. intros H. unfold bind. rewrite H. reflexivity. Qed.

Lemma preserves_ret {A X : Type} (f : World -> X) (a : A) : preserves f (ret a).
Proof. intros w. reflexivity. Qed.

Lemma preserves_throw {A X : Type} (f : World -> X) msg :
  preserves f (@throw A msg).
Proof. intros w. reflexivity. Qed.

Lemma preserves_diverge {A X : Type} (f : World -> X) :
  preserves f (@diverge A).
Proof. intros w. reflexivity. Qed.

Lemma preserves_bind {A B X : Type} (f : World -> X) (m : M A) (k : A -> M B) :
  preserves f m -> (forall a, preserves f (k a)) -> preserves f (bind m k).
Proof.
  intros Hm Hk w. unfold bind. specialize (Hm w).
  destruct (m w) as [[a | e |] w1]; simpl in *; try exact Hm.
  rewrite Hk. exact Hm.
Qed.

Lemma preserves_try_catch {A X : Type} (f : World -> X) (m : M A) handler :
  preserves f m -> (forall e, preserves f (handler e)) ->
  preserves f (try_catch m handler).
Proof.
  intros Hm Hh w. unfold try_catch. specialize (Hm w).
  destruct (m w) as [[a | e |] w1]; simpl in *; try exact Hm.
  rewrite Hh. exact Hm.
Qed.

Lemma preserves_run {A X : Type} (f : World -> X) (m : M A) w o w' :
  preserves f m -> m w = (o, w') -> f w' = f w.
Proof. intros Hm H. specialize (Hm w). rewrite H in Hm. exact Hm. Qed.

(** ** Strings *)

Lemma append_inj_l (a x y : string) : a ++ x = a ++ y -> x = y.
Proof.
  induction a as [| c a IH]; simpl; intros H.
  - exact H.
  - injection H as H. auto.
Qed.

Lemma append_assoc (a b c : string) : (a ++ b) ++ c = a ++ (b ++ c).
Proof.
  induction a as [| x a IH]; simpl; [reflexivity | now rewrite IH].
Qed.

Lemma prefix_append (p rest : string) : prefix p (p ++ rest) = true.
Proof.
  induction p as [| c p IH]; simpl.
  - destruct rest; reflexivity.
  - destruct (Ascii.ascii_dec c c) as [_ | n]; [exact IH | now elim n].
Qed.

Lemma includes_here (p rest : string) : includes p (p ++ rest) = true.
Proof.
  pose proof (prefix_append p rest) as Hp.
  destruct (p ++ rest); cbn [includes]; rewrite Hp; reflexivity.
Qed.

(** A message built around a string includes it. *)
Lemma includes_middle (before p rest : string) :
  includes p (before ++ p ++ rest) = true.
Proof.
  induction before as [| c b IH].
  - change (EmptyString ++ p ++ rest) with (p ++ rest). apply includes_here.
  - change ((String c b) ++ p ++ rest) with (String c (b ++ p ++ rest)).
    cbn [includes]. rewrite IH. apply orb_true_r.
Qed.

Lemma join_empty_is_concatenation (l : list string) :
  Js.join EmptyString l = fold_right append EmptyString l.
Proof.
  unfold Js.join.
  induction l as [| x [| y rest] IH]; simpl.
  - reflexivity.
  - clear IH. induction x as [| c x IHx]; simpl; [reflexivity | now rewrite <- IHx].
  - simpl in IH. rewrite IH. reflexivity.
Qed.

(** ** The digest *)

Lemma hex_of_bytes_length (bs : list Z) :
  String.length (MD5.hex_of_bytes bs) = 2 * List.length bs.
Proof.
  induction bs as [| b bs IH]; simpl; [reflexivity | rewrite IH; lia].
Qed.

Lemma le_bytes_length (n : nat) (x : Z) : List.length (MD5.le_bytes n x) = n.
Proof. unfold MD5.le_bytes. rewrite length_map, length_seq. reflexivity. Qed.

Lemma digest_length (msg : list Z) : List.length (MD5.digest msg) = 16.
Proof.
  unfold MD5.digest. cbv zeta.
  rewrite !length_app, !le_bytes_length. reflexivity.
Qed.

(** The hex digest always has 32 characters. *)
Lemma hex_length (s : string) : String.length (MD5.hex s) = 32.
Proof.
  unfold MD5.hex. rewrite hex_of_bytes_length, digest_length. reflexivity.
Qed.

Lemma hashed_id_is_not_the_sentinel (x : string) :
  "deploy-" ++ MD5.hex x <> "deploy-live".
Proof.
  intros H.
  apply (append_inj_l "deploy-" (MD5.hex x) "live") in H.
  pose proof (hex_length x) as L. rewrite H in L. discriminate L.
Qed.

(** ** The constructor, step by step *)

Lemma construct_Return_inv h scope id props fuel w site w' :
  construct h scope id props fuel w = (Return site, w') ->
  exists ph w1 w2 w3 assets w4 bucket w5 fn w6 zone w7 cert w8 dist w9 w10,
    placeholders scope (environment_or_empty props) (initial_placeholders props) w
      = (Return ph, w1)
    /\ emit (RegisterSiteEnvironment id (path props) (stack_id scope)
                                     (ph_environmentOutputs ph)) w1
       = (Return tt, w2)
    /\ validateCustomDomainSettings props w2 = (Return tt, w3)
    /\ buildApp h scope id props (ph_environment ph)
                (fileSizeLimit (root scope) props) (buildDir (root scope))
                (local (root scope)) (skipBuild (root scope)) fuel w3
       = (Return assets, w4)
    /\ createS3Bucket h props w4 = (Return bucket, w5)
    /\ createCustomResourceFunction h w5 = (Return fn, w6)
    /\ lookupHostedZone h props w6 = (Return zone, w7)
    /\ createCertificate h props zone w7 = (Return cert, w8)
    /\ createCfDistribution h props (deployId (local (root scope)) assets)
                            bucket cert (local (root scope))
                            (disablePlaceholder_or_false props) w8
       = (Return dist, w9)
    /\ createRoute53Records props zone dist w9 = (Return tt, w10)
    /\ createS3Deployment props fn assets bucket
                          (deployId (local (root scope)) assets) dist
                          (ph_replaceValues ph) w10
       = (Return tt, w')
    /\ site = {| this_id := id;
                 this_props := props;
                 this_environment := ph_environment ph;
                 this_replaceValues := ph_replaceValues ph;
                 this_assets := assets;
                 this_deployId := deployId (local (root scope)) assets;
                 this_s3Bucket := bucket;
                 this_customResourceFn := fn;
                 this_hostedZone := zone;
                 this_acmCertificate := cert;
                 this_cfDistribution := dist |}.
Proof.
  unfold construct. cbv zeta. intros H.
  apply bind_Return_inv in H as (ph & w1 & H1 & H).
  apply bind_Return_inv in H as ([] & w2 & H2 & H).
  apply bind_Return_inv in H as ([] & w3 & H3 & H).
  apply bind_Return_inv in H as (assets & w4 & H4 & H).
  apply bind_Return_inv in H as (bucket & w5 & H5 & H).
  apply bind_Return_inv in H as (fn & w6 & H6 & H).
  apply bind_Return_inv in H as (zone & w7 & H7 & H).
  apply bind_Return_inv in H as (cert & w8 & H8 & H).
  apply bind_Return_inv in H as (dist & w9 & H9 & H).
  apply bind_Return_inv in H as ([] & w10 & H10 & H).
  apply bind_Return_inv in H as ([] & w11 & H11 & H).
  unfold ret in H. injection H as Hs Hw. subst w11.
  exists ph, w1, w2, w3, assets, w4, bucket, w5, fn, w6, zone, w7, cert, w8,
    dist, w9, w10.
  repeat split; auto.
Qed.

(** What the loop over the environment leaves behind. *)
Lemma placeholders_spec scope entries acc w :
  placeholders scope entries acc w =
  (Return
     {| ph_environment :=
          fold_left (fun o kv => Js.set (fst kv) (placeholder (fst kv)) o)
                    entries (ph_environment acc);
        ph_replaceValues := (ph_replaceValues acc ++ compile entries)%list;
        ph_environmentOutputs :=
          fold_left
            (fun o kv =>
               Js.set (fst kv) (getLogicalId scope ("SstStaticSiteEnv_" ++ fst kv)) o)
            entries (ph_environmentOutputs acc) |},
   {| fs := fs w; log := log w;
      children :=
        (children w
           ++ map (fun kv => CfnOutput ("SstStaticSiteEnv_" ++ fst kv) (snd kv))
                  entries)%list |}).
Proof.
  revert acc w.
  induction entries as [| [key value] rest IH]; intros acc w.
  - simpl. rewrite !app_nil_r. destruct acc, w. reflexivity.
  - cbn [placeholders]. unfold bind at 1. cbn [add_child].
    rewrite IH. cbn [ph_environment ph_replaceValues ph_environmentOutputs
                     fs log children fold_left map fst snd compile flat_map].
    rewrite <- !app_assoc. reflexivity.
Qed.

(** ** The deployment identifier *)

Lemma deployId_resolve (dev : bool) (assets : list Asset) :
  deployId dev assets = resolve (map assetHash assets) dev.
Proof.
  unfold deployId, resolve, assetsHash.
  rewrite join_empty_is_concatenation. reflexivity.
Qed.

Lemma deployId_sentinel_iff (dev : bool) (assets : list Asset) :
  deployId dev assets = "deploy-live" <-> dev = true.
Proof.
  unfold deployId. destruct dev; split; intros H; try reflexivity.
  - exfalso. exact (hashed_id_is_not_the_sentinel _ H).
  - discriminate H.
Qed.

(** C1: the identifier the constructor stores is the resolver's: with dev
    mode off it is "deploy-" followed by the hex MD5 digest of the
    fingerprints of the assets concatenated in order, and with dev mode on
    it is "deploy-live" whatever the assets are; the same holds of
    [deployId] on every list of assets. *)
Theorem deployId_is_resolved h scope id props fuel w site w' :
  construct h scope id props fuel w = (Return site, w') ->
  this_deployId site
    = resolve (map assetHash (this_assets site)) (local (root scope))
  /\ (local (root scope) = false ->
      this_deployId site
      = "deploy-"
          ++ MD5.hex (fold_right append EmptyString
                                 (map assetHash (this_assets site))))
  /\ (local (root scope) = true -> this_deployId site = "deploy-live")
  /\ (forall dev assets, deployId dev assets = resolve (map assetHash assets) dev).
Proof.
  intros H.
  apply construct_Return_inv in H
    as (ph & w1 & w2 & w3 & assets & w4 & bucket & w5 & fn & w6 & zone & w7
        & cert & w8 & dist & w9 & w10 & _ & _ & _ & _ & _ & _ & _ & _ & _
        & _ & _ & ->).
  cbn [this_deployId this_assets].
  rewrite deployId_resolve. unfold resolve.
  split; [reflexivity |]. split; [intros ->; reflexivity |].
  split; [intros ->; reflexivity |].
  intros dev assets0. apply deployId_resolve.
Qed.

Lemma deployId_is_resolved_witness :
  exists site w',
    construct Sample.host (Sample.scope false false) "Site" Sample.props 5
              Sample.world = (Return site, w')
    /\ this_deployId site = "deploy-429bf32eac443ac8d1936c694aa18337".
Proof.
  eexists. eexists. split.
  - vm_compute. reflexivity.
  - etransitivity.
    + eapply proj1,
        (deployId_is_resolved Sample.host (Sample.scope false false)
                              "Site" Sample.props 5 Sample.world).
      vm_compute. reflexivity.
    + vm_compute. reflexivity.
Defined.

(** With the build skipped, [buildApp] returns the stub asset alone; it
    neither probes the file system nor runs a command. *)
Lemma buildApp_stub h scope id props env limit dir fuel w :
  buildApp h scope id props env limit dir false true fuel w
  = (Return [asset_of h (fs w) "Asset" (stubPath h)],
     {| fs := fs w; log := log w;
        children :=
          (children w ++ [NewAsset (asset_of h (fs w) "Asset" (stubPath h))])%list |}).
Proof. reflexivity. Qed.

(** ** Custom-domain validation *)

(** C10: the validation returns normally when no custom domain is given
    or when it is a plain string; for a structured custom domain whose
    [isExternalDomain] is [true] it throws exactly when the certificate is
    missing or a domain alias is set or a hosted zone is set (set meaning a
    truthy value), and the message names the setting at fault: the
    certificate first, then the alias, then the hosted zone. *)
Theorem validateCustomDomainSettings_throws props w :
  (customDomain props = None ->
   validateCustomDomainSettings props w = (Return tt, w))
  /\ (forall name, customDomain props = Some (DomainString name) ->
      validateCustomDomainSettings props w = (Return tt, w))
  /\ (forall d, customDomain props = Some (DomainProps d) ->
      isExternalDomain d = Some true ->
      ((exists msg, validateCustomDomainSettings props w = (Throw msg, w))
       <-> (certificate d = None
            \/ Js.truthy (domainAlias d) = true
            \/ hostedZone_truthy (hostedZone d) = true))
      /\ ((forall msg, validateCustomDomainSettings props w <> (Throw msg, w))
          -> validateCustomDomainSettings props w = (Return tt, w))
      /\ (certificate d = None ->
          validateCustomDomainSettings props w = (Throw certificate_required, w)
          /\ includes "certificate" certificate_required = true)
      /\ (certificate d <> None -> Js.truthy (domainAlias d) = true ->
          validateCustomDomainSettings props w = (Throw domainAlias_unsupported, w)
          /\ includes "customDomain.domainAlias" domainAlias_unsupported = true)
      /\ (certificate d <> None -> Js.truthy (domainAlias d) = false ->
          hostedZone_truthy (hostedZone d) = true ->
          validateCustomDomainSettings props w = (Throw hostedZone_unsupported, w)
          /\ includes "customDomain.hostedZone" hostedZone_unsupported = true)).
Proof.
  unfold validateCustomDomainSettings.
  split; [| split].
  - intros ->. reflexivity.
  - intros name ->. reflexivity.
  - intros d -> E. rewrite E. cbn [is_true].
    destruct (certificate d) as [c |] eqn:Ec; cbn [Js.defined negb];
      destruct (Js.truthy (domainAlias d)) eqn:Ea;
      destruct (hostedZone_truthy (hostedZone d)) eqn:Ez;
      unfold throw, ret;
      (split; [split; [intros [msg M]; try discriminate M; auto
                      | intros [C | [C | C]]; try discriminate C; eauto ] |]);
      (split; [intros N; try reflexivity; exfalso; eapply N; reflexivity |]);
      repeat split; intros; try discriminate; try congruence;
        vm_compute; reflexivity.
Qed.

(** ** Children of the construct *)

Lemma select_app {X : Type} (pick : Construct -> option X) l1 l2 :
  select pick (l1 ++ l2) = (select pick l1 ++ select pick l2)%list.
Proof.
  induction l1 as [| c l1 IH]; simpl; [reflexivity |].
  destruct (pick c); simpl; now rewrite IH.
Qed.

Section Preservation.

Context {X : Type} (pick : Construct -> option X).

Let kept (w : World) : list X := select pick (children w).

Lemma preserves_emit e : preserves kept (emit e).
Proof. intros w. reflexivity. Qed.

Lemma preserves_existsSync p : preserves kept (existsSync p).
Proof. intros w. reflexivity. Qed.

Lemma preserves_removeSync p : preserves kept (removeSync p).
Proof. intros w. reflexivity. Qed.

Lemma preserves_execSync h cmd cwd env : preserves kept (execSync h cmd cwd env).
Proof.
  intros w. unfold execSync.
  destruct (run h cmd cwd env (fs w)) as [[|] f]; reflexivity.
Qed.

Lemma preserves_add_child c : pick c = None -> preserves kept (add_child c).
Proof.
  intros E w. unfold kept. cbn [add_child snd children].
  rewrite select_app. cbn [select]. rewrite E. apply app_nil_r.
Qed.

Lemma preserves_new_Asset h id p :
  (forall a, pick (NewAsset a) = None) -> preserves kept (new_Asset h id p).
Proof.
  intros E w. unfold kept. cbn [new_Asset snd children].
  rewrite select_app. cbn [select]. rewrite E. apply app_nil_r.
Qed.

End Preservation.

Section Children.

Context {X : Type} (pick : Construct -> option X).
Hypothesis no_output : forall id value, pick (CfnOutput id value) = None.
Hypothesis no_asset : forall a, pick (NewAsset a) = None.
Hypothesis no_bucket : forall b, pick (NewBucket b) = None.
Hypothesis no_layer : forall id, pick (AwsCliLayer id) = None.
Hypothesis no_function : forall f, pick (NewFunction f) = None.
Hypothesis no_lookup : forall id name, pick (HostedZoneLookup id name) = None.
Hypothesis no_certificate :
  forall id name zone region, pick (DnsValidatedCertificate id name zone region) = None.
Hypothesis no_record :
  forall id name zone target, pick (ARecord id name zone target) = None.
Hypothesis no_redirect :
  forall id zone names target, pick (HttpsRedirect id zone names target) = None.

Let kept (w : World) : list X := select pick (children w).

Ltac preserve' :=
  repeat first
    [ progress cbv zeta
    | apply preserves_ret | apply preserves_throw | apply preserves_diverge
    | apply preserves_emit | apply preserves_existsSync
    | apply preserves_removeSync | apply preserves_execSync
    | apply preserves_new_Asset; assumption
    | apply preserves_add_child; auto
    | apply preserves_bind; [| intros ?]
    | apply preserves_try_catch; [| intros ?]
    | match goal with
      | |- preserves _ (if ?b then _ else _) => destruct b
      | |- preserves _ (match ?x with _ => _ end) => destruct x
      end ].

Lemma preserves_placeholders scope entries acc :
  preserves kept (placeholders scope entries acc).
Proof.
  revert acc. induction entries as [| [key value] rest IH]; intros acc;
    cbn [placeholders]; preserve'. apply IH.
Qed.

Lemma preserves_validateCustomDomainSettings props :
  preserves kept (validateCustomDomainSettings props).
Proof. unfold validateCustomDomainSettings. preserve'. Qed.

Lemma preserves_createAssets h zp fuel partId assets :
  preserves kept (createAssets h zp fuel partId assets).
Proof.
  revert partId assets. induction fuel as [| fuel IH]; intros partId assets;
    cbn [createAssets]; preserve'. apply IH.
Qed.

Lemma preserves_buildApp h scope id props env limit dir dev skip fuel :
  preserves kept (buildApp h scope id props env limit dir dev skip fuel).
Proof. unfold buildApp. preserve'; apply preserves_createAssets. Qed.

Lemma preserves_createS3Bucket h props : preserves kept (createS3Bucket h props).
Proof. unfold createS3Bucket. preserve'. Qed.

Lemma preserves_createCustomResourceFunction h :
  preserves kept (createCustomResourceFunction h).
Proof. unfold createCustomResourceFunction, new_Function. preserve'. Qed.

Lemma preserves_lookupHostedZone h props :
  preserves kept (lookupHostedZone h props).
Proof. unfold lookupHostedZone, fromLookup. preserve'. Qed.

Lemma preserves_createCertificate h props zone :
  preserves kept (createCertificate h props zone).
Proof. unfold createCertificate, new_DnsValidatedCertificate. preserve'. Qed.

Lemma preserves_createRoute53Records props zone dist :
  preserves kept (createRoute53Records props zone dist).
Proof. unfold createRoute53Records. preserve'. Qed.

End Children.

Lemma createCfDistribution_Return h props id bucket cert dev dis w d w' :
  createCfDistribution h props id bucket cert dev dis w = (Return d, w') ->
  originPath d = id /\ origin_bucket d = bucket
  /\ fs w' = fs w /\ log w' = log w
  /\ children w' = (children w ++ [NewDistribution d])%list.
Proof.
  unfold createCfDistribution. cbv zeta.
  destruct (Js.defined (cf_certificate _)); [discriminate |].
  destruct (Js.defined (cf_domainNames _)); [discriminate |].
  intros H. apply bind_Return_inv in H as ([] & w1 & H1 & H).
  assert (w1 = w) as ->.
  { destruct (dev && negb dis); [injection H1; auto |].
    destruct (Js.truthy (errorPage props)); [| injection H1; auto].
    destruct (Js.defined (cf_errorResponses _)); [discriminate | injection H1; auto]. }
  cbv in H. injection H as <- <-. cbn. auto.
Qed.

(** The constructor adds one custom resource and one distribution to the
    construct tree, and both carry the deployment identifier. *)
Lemma construct_children h scope id props fuel w site w' :
  construct h scope id props fuel w = (Return site, w') ->
  customResources w' = (customResources w ++ [publish_request site])%list
  /\ distributions w' = (distributions w ++ [this_cfDistribution site])%list
  /\ originPath (this_cfDistribution site) = this_deployId site
  /\ origin_bucket (this_cfDistribution site) = this_s3Bucket site.
Proof.
  intros H.
  apply construct_Return_inv in H
    as (ph & w1 & w2 & w3 & assets & w4 & bucket & w5 & fn & w6 & zone & w7
        & cert & w8 & dist & w9 & w10 & H1 & H2 & H3 & H4 & H5 & H6 & H7 & H8
        & H9 & H10 & H11 & ->).
  apply createCfDistribution_Return in H9 as (Ho & Hb & _ & _ & Hc).
  cbv [createS3Deployment add_child] in H11. injection H11 as <-.
  cbn [this_cfDistribution this_deployId this_s3Bucket].
  repeat split; auto.
  - unfold customResources. cbn [children]. rewrite select_app. cbn [select as_customResource].
    f_equal.
    transitivity (customResources w9);
      [ exact (preserves_run _ _ _ _ _
                 (preserves_createRoute53Records as_customResource
                    (fun _ _ _ _ => eq_refl) (fun _ _ _ _ => eq_refl) props zone dist) H10) |].
    unfold customResources at 1. rewrite Hc, select_app. cbn [select as_customResource].
    rewrite app_nil_r.
    transitivity (customResources w7);
      [ exact (preserves_run _ _ _ _ _
                 (preserves_createCertificate as_customResource
                    (fun _ _ _ _ => eq_refl) h props zone) H8) |].
    transitivity (customResources w6);
      [ exact (preserves_run _ _ _ _ _
                 (preserves_lookupHostedZone as_customResource
                    (fun _ _ => eq_refl) h props) H7) |].
    transitivity (customResources w5);
      [ exact (preserves_run _ _ _ _ _
                 (preserves_createCustomResourceFunction as_customResource
                    (fun _ => eq_refl) (fun _ => eq_refl) h) H6) |].
    transitivity (customResources w4);
      [ exact (preserves_run _ _ _ _ _
                 (preserves_createS3Bucket as_customResource
                    (fun _ => eq_refl) h props) H5) |].
    transitivity (customResources w3);
      [ exact (preserves_run _ _ _ _ _
                 (preserves_buildApp as_customResource
                    (fun _ => eq_refl) h scope id props _ _ _ _ _ fuel) H4) |].
    transitivity (customResources w2);
      [ exact (preserves_run _ _ _ _ _
                 (preserves_validateCustomDomainSettings as_customResource props) H3) |].
    transitivity (customResources w1);
      [ exact (preserves_run _ _ _ _ _ (preserves_emit as_customResource _) H2) |].
    exact (preserves_run _ _ _ _ _
             (preserves_placeholders as_customResource (fun _ _ => eq_refl) scope _ _) H1).
  - unfold distributions. cbn [children]. rewrite select_app. cbn [select as_distribution].
    rewrite app_nil_r.
    transitivity (distributions w9);
      [ exact (preserves_run _ _ _ _ _
                 (preserves_createRoute53Records as_distribution
                    (fun _ _ _ _ => eq_refl) (fun _ _ _ _ => eq_refl) props zone dist) H10) |].
    unfold distributions at 1. rewrite Hc, select_app. cbn [select as_distribution].
    f_equal.
    transitivity (distributions w7);
      [ exact (preserves_run _ _ _ _ _
                 (preserves_createCertificate as_distribution
                    (fun _ _ _ _ => eq_refl) h props zone) H8) |].
    transitivity (distributions w6);
      [ exact (preserves_run _ _ _ _ _
                 (preserves_lookupHostedZone as_distribution
                    (fun _ _ => eq_refl) h props) H7) |].
    transitivity (distributions w5);
      [ exact (preserves_run _ _ _ _ _
                 (preserves_createCustomResourceFunction as_distribution
                    (fun _ => eq_refl) (fun _ => eq_refl) h) H6) |].
    transitivity (distributions w4);
      [ exact (preserves_run _ _ _ _ _
                 (preserves_createS3Bucket as_distribution
                    (fun _ => eq_refl) h props) H5) |].
    transitivity (distributions w3);
      [ exact (preserves_run _ _ _ _ _
                 (preserves_buildApp as_distribution
                    (fun _ => eq_refl) h scope id props _ _ _ _ _ fuel) H4) |].
    transitivity (distributions w2);
      [ exact (preserves_run _ _ _ _ _
                 (preserves_validateCustomDomainSettings as_distribution props) H3) |].
    transitivity (distributions w1);
      [ exact (preserves_run _ _ _ _ _ (preserves_emit as_distribution _) H2) |].
    exact (preserves_run _ _ _ _ _
             (preserves_placeholders as_distribution (fun _ _ => eq_refl) scope _ _) H1).
Qed.

(** ** Substitution rules *)

Lemma compile_length (envVars : list (string * string)) :
  List.length (compile envVars) = 2 * List.length envVars.
Proof.
  induction envVars as [| kv rest IH]; [reflexivity |].
  change (compile (kv :: rest)) with (firstn 2 (compile [kv]) ++ compile rest)%list.
  rewrite length_app, IH. cbn [compile flat_map firstn List.length List.app]. lia.
Qed.

(** C3: the rules the construct hands to the custom resource are the
    user's [replaceValues] (none when the prop is absent) followed, for
    every entry [KEY: value] of the [environment] prop in order, by exactly
    two rules: one for the files "**/*.js" and one for "index.html", both
    searching the token "{{ KEY }}" and replacing it by the value. *)
Theorem replaceValues_are_compiled h scope id props fuel w site w' :
  construct h scope id props fuel w = (Return site, w') ->
  this_replaceValues site
    = ((match replaceValues props with Some rules => rules | None => [] end)
         ++ compile (match environment props with Some env => env | None => [] end))%list
  /\ List.length (this_replaceValues site)
     = List.length (match replaceValues props with Some rules => rules | None => [] end)
       + 2 * List.length (match environment props with Some env => env | None => [] end)
  /\ exists request,
       customResources w' = (customResources w ++ [request])%list
       /\ ReplaceValues request = this_replaceValues site.
Proof.
  intros H. pose proof (construct_children _ _ _ _ _ _ _ _ H) as (Hc & _).
  apply construct_Return_inv in H
    as (ph & w1 & w2 & w3 & assets & w4 & bucket & w5 & fn & w6 & zone & w7
        & cert & w8 & dist & w9 & w10 & H1 & _ & _ & _ & _ & _ & _ & _ & _
        & _ & _ & ->).
  rewrite placeholders_spec in H1. injection H1 as <- _.
  cbn [this_replaceValues ph_replaceValues initial_placeholders] in *.
  unfold replaceValues_or_empty, environment_or_empty in *.
  split; [reflexivity |]. split.
  - rewrite length_app, compile_length. reflexivity.
  - eexists. split; [exact Hc | reflexivity].
Qed.

Lemma replaceValues_are_compiled_witness :
  exists site w',
    construct Sample.host (Sample.scope false false) "Site" Sample.props 5
              Sample.world = (Return site, w')
    /\ this_replaceValues site
       = [ {| files := "*.css"; search := "COLOR"; replace := "red" |};
           {| files := "**/*.js"; search := "{{ API_URL }}";
              replace := "https://api.example.com" |};
           {| files := "index.html"; search := "{{ API_URL }}";
              replace := "https://api.example.com" |} ]
    /\ exists request,
         customResources w' = (customResources Sample.world ++ [request])%list
         /\ ReplaceValues request
            = [ {| files := "*.css"; search := "COLOR"; replace := "red" |};
                {| files := "**/*.js"; search := "{{ API_URL }}";
                   replace := "https://api.example.com" |};
                {| files := "index.html"; search := "{{ API_URL }}";
                   replace := "https://api.example.com" |} ].
Proof.
  remember (construct Sample.host (Sample.scope false false) "Site" Sample.props 5
                      Sample.world) as r eqn:E.
  assert (exists site w', r = (Return site, w')) as (site & w' & Hr).
  { subst r. eexists. eexists. vm_compute. reflexivity. }
  rewrite Hr in E. symmetry in E.
  exists site, w'. split; [exact Hr |].
  destruct (replaceValues_are_compiled Sample.host (Sample.scope false false)
              "Site" Sample.props 5 Sample.world site w' E)
    as (Hrules & _ & request & Hreq & Hsame).
  split; [exact Hrules |].
  exists request. split; [exact Hreq |]. rewrite Hsame. exact Hrules.
Defined.

(** ** The publish request *)

(** C6: a site that is constructed adds exactly one custom resource, of
    type Custom::SSTBucketDeployment, and its [DistributionPaths] is the
    one-element list ["/*"], for the distribution of the site. *)
Theorem one_invalidation_of_everything h scope id props fuel w site w' :
  construct h scope id props fuel w = (Return site, w') ->
  exists request,
    customResources w' = (customResources w ++ [request])%list
    /\ resourceType request = "Custom::SSTBucketDeployment"
    /\ DistributionPaths request = ["/*"]
    /\ DistributionId request = distributionId (this_cfDistribution site).
Proof.
  intros H. apply construct_children in H as (Hc & _).
  exists (publish_request site). repeat split. exact Hc.
Qed.

Lemma one_invalidation_of_everything_witness :
  exists site w',
    construct Sample.host (Sample.scope false false) "Site" Sample.props 5
              Sample.world = (Return site, w')
    /\ exists request,
         customResources w' = (customResources Sample.world ++ [request])%list
         /\ resourceType request = "Custom::SSTBucketDeployment"
         /\ DistributionPaths request = ["/*"]
         /\ DistributionId request = distributionId (this_cfDistribution site).
Proof.
  eexists. eexists. split.
  - vm_compute. reflexivity.
  - eapply (one_invalidation_of_everything Sample.host (Sample.scope false false)
                                           "Site" Sample.props 5 Sample.world).
    vm_compute. reflexivity.
Defined.

(** C7: the [DestinationBucketKeyPrefix] of the custom resource and the
    [originPath] of the distribution's origin are both the deployment
    identifier of the site, the resolver's value for its assets; the
    destination bucket is the bucket behind that origin. *)
Theorem deployId_is_prefix_and_origin h scope id props fuel w site w' :
  construct h scope id props fuel w = (Return site, w') ->
  this_deployId site
    = resolve (map assetHash (this_assets site)) (local (root scope))
  /\ distributions w' = (distributions w ++ [this_cfDistribution site])%list
  /\ originPath (this_cfDistribution site) = this_deployId site
  /\ exists request,
       customResources w' = (customResources w ++ [request])%list
       /\ DestinationBucketKeyPrefix request = this_deployId site
       /\ DestinationBucketName request
          = bucketName (origin_bucket (this_cfDistribution site)).
Proof.
  intros H. pose proof (construct_children _ _ _ _ _ _ _ _ H) as (Hc & Hd & Ho & Hb).
  split; [| split; [exact Hd | split; [exact Ho |]]].
  - apply construct_Return_inv in H
      as (ph & w1 & w2 & w3 & assets & w4 & bucket & w5 & fn & w6 & zone & w7
          & cert & w8 & dist & w9 & w10 & _ & _ & _ & _ & _ & _ & _ & _ & _
          & _ & _ & ->).
    apply deployId_resolve.
  - exists (publish_request site). rewrite Hb. repeat split. exact Hc.
Qed.

Lemma deployId_is_prefix_and_origin_witness :
  exists site w',
    construct Sample.host (Sample.scope false false) "Site" Sample.props 5
              Sample.world = (Return site, w')
    /\ (this_deployId site
         = resolve (map assetHash (this_assets site))
                   (local (root (Sample.scope false false)))
        /\ distributions w'
           = (distributions Sample.world ++ [this_cfDistribution site])%list
        /\ originPath (this_cfDistribution site) = this_deployId site
        /\ exists request,
             customResources w' = (customResources Sample.world ++ [request])%list
             /\ DestinationBucketKeyPrefix request = this_deployId site
             /\ DestinationBucketName request
                = bucketName (origin_bucket (this_cfDistribution site))).
Proof.
  eexists. eexists. split.
  - vm_compute. reflexivity.
  - eapply (deployId_is_prefix_and_origin Sample.host (Sample.scope false false)
                                          "Site" Sample.props 5 Sample.world).
    vm_compute. reflexivity.
Defined.

(** ** The asset loop *)

Lemma createAssets_run h zp n :
  forall fuel k assets w,
    (forall i, i < n -> exists_in (fs w) (zipFilePath h zp (k + i)) = true) ->
    exists_in (fs w) (zipFilePath h zp (k + n)) = false ->
    n < fuel ->
    createAssets h zp fuel k assets w
    = (Return
         (assets
            ++ map (fun i => asset_of h (fs w) ("Asset" ++ Js.number i)
                                      (zipFilePath h zp i))
                   (seq k n))%list,
       {| fs := fs w;
          log := (log w ++ probes h zp k n)%list;
          children :=
            (children w
               ++ map (fun i => NewAsset (asset_of h (fs w) ("Asset" ++ Js.number i)
                                                   (zipFilePath h zp i)))
                      (seq k n))%list |}).
Proof.
  induction n as [| n IH]; intros fuel k assets w Hall Hn Hfuel;
    (destruct fuel as [| fuel]; [lia |]); cbn [createAssets];
    unfold bind at 1; cbn [existsSync].
  - rewrite Nat.add_0_r in Hn. rewrite Hn. cbn [negb seq map].
    unfold ret, probes. cbn [seq map]. rewrite Nat.add_0_r, !app_nil_r.
    reflexivity.
  - pose proof (Hall 0 ltac:(lia)) as H0. rewrite Nat.add_0_r in H0.
    rewrite H0. cbn [negb]. unfold bind at 1. cbn [new_Asset fs log children].
    rewrite (IH fuel (S k)); cbn [fs log children].
    + unfold probes, asset_of. cbn [seq map].
      rewrite <- !app_assoc. cbn [List.app].
      replace (S k + n) with (k + S n) by lia. reflexivity.
    + intros i Hi. replace (S k + i) with (k + S i) by lia. apply Hall. lia.
    + replace (S k + n) with (k + S n) by lia. exact Hn.
    + lia.
Qed.

(** With too few iterations allowed the model reports divergence rather
    than a result. *)
Lemma createAssets_out_of_fuel h zp :
  forall fuel k assets w,
    (forall i, i < fuel -> exists_in (fs w) (zipFilePath h zp (k + i)) = true) ->
    fst (createAssets h zp fuel k assets w) = Diverge.
Proof.
  induction fuel as [| fuel IH]; intros k assets w Hall; [reflexivity |].
  cbn [createAssets]. unfold bind at 1. cbn [existsSync].
  pose proof (Hall 0 ltac:(lia)) as H0. rewrite Nat.add_0_r in H0.
  rewrite H0. cbn [negb]. unfold bind at 1. cbn [new_Asset fs log children].
  apply IH. cbn [fs]. intros i Hi.
  replace (S k + i) with (k + S i) by lia. apply Hall. lia.
Qed.



(** *** The loop ends on every finite file system *)

Lemma exists_in_In (f : FileSystem) (p : string) :
  exists_in f p = true <-> In p (map fst f).
Proof.
  unfold exists_in. rewrite existsb_exists. split.
  - intros (entry & Hin & E). apply String.eqb_eq in E. subst p.
    apply in_map. exact Hin.
  - intros Hin. apply in_map_iff in Hin as (entry & E & Hin).
    exists entry. split; [exact Hin | now apply String.eqb_eq].
Qed.

Lemma first_false (P : nat -> bool) (m : nat) :
  P m = false ->
  exists n, n <= m /\ P n = false /\ forall i, i < n -> P i = true.
Proof.
  induction m as [m IH] using lt_wf_ind. intros Hm.
  destruct (forallb P (seq 0 m)) eqn:E.
  - exists m. split; [lia |]. split; [exact Hm |].
    intros i Hi. rewrite forallb_forall in E. apply E, in_seq. lia.
  - assert (exists i, i < m /\ P i = false) as (i & Hi & Pi).
    { clear Hm IH. induction m as [| m IHm]; [discriminate |].
      rewrite seq_S, forallb_app in E. cbn in E.
      destruct (forallb P (seq 0 m)).
      - exists m. split; [lia |]. destruct (P m); [discriminate | reflexivity].
      - destruct (IHm eq_refl) as (i & Hi & Pi). exists i. split; [lia | exact Pi]. }
    destruct (IH i Hi Pi) as (n & Hn & Pn & Hbelow).
    exists n. split; [lia | auto].
Qed.

(** X15: if no two parts share a path, some part is missing among the
    first [length f + 1] of any file system [f], so the loop stops there at
    the latest and returns the parts before the first missing one. *)
Lemma createAssets_terminates h zp (w : World) :
  (forall i j, zipFilePath h zp i = zipFilePath h zp j -> i = j) ->
  exists n,
    n <= List.length (fs w)
    /\ (forall i, i < n -> exists_in (fs w) (zipFilePath h zp i) = true)
    /\ exists_in (fs w) (zipFilePath h zp n) = false
    /\ forall fuel, n < fuel ->
         fst (createAssets h zp fuel 0 [] w)
         = Return (map (fun i => asset_of h (fs w) ("Asset" ++ Js.number i)
                                          (zipFilePath h zp i))
                       (seq 0 n)).
Proof.
  intros Hinj.
  set (P := fun i => exists_in (fs w) (zipFilePath h zp i)).
  assert (exists m, m <= List.length (fs w) /\ P m = false) as (m & Hm & Pm).
  { destruct (forallb P (seq 0 (S (List.length (fs w))))) eqn:E.
    - exfalso. rewrite forallb_forall in E.
      assert (Hincl : incl (map (zipFilePath h zp) (seq 0 (S (List.length (fs w)))))
                           (map fst (fs w))).
      { intros p Hp. apply in_map_iff in Hp as (i & <- & Hi).
        apply exists_in_In. exact (E i Hi). }
      assert (Hnd : NoDup (map (zipFilePath h zp) (seq 0 (S (List.length (fs w)))))).
      { apply Injective_map_NoDup; [exact Hinj | apply seq_NoDup]. }
      pose proof (NoDup_incl_length Hnd Hincl) as L.
      rewrite !length_map, length_seq in L. lia.
    - assert (exists i, In i (seq 0 (S (List.length (fs w)))) /\ P i = false)
        as (i & Hi & Pi).
      { revert E. generalize (seq 0 (S (List.length (fs w)))).
        induction l as [| x l IHl]; [discriminate |]. cbn.
        destruct (P x) eqn:Px; cbn.
        - intros E. destruct (IHl E) as (i & Hi & Pi). exists i. auto.
        - intros _. exists x. auto. }
      exists i. apply in_seq in Hi. split; [lia | exact Pi]. }
  destruct (first_false P m Pm) as (n & Hn & Pn & Hbelow).
  exists n. split; [lia |]. split; [exact Hbelow |]. split; [exact Pn |].
  intros fuel Hfuel.
  rewrite (createAssets_run h zp n fuel 0 [] w Hbelow Pn Hfuel). reflexivity.
Qed.

(** ** Building and packaging *)

(** [buildApp] outside dev mode and with the build not skipped, once the
    site path is known to exist. *)
Lemma buildApp_unfold h scope id props env limit dir fuel w :
  exists_in (fs w) (path props) = true ->
  buildApp h scope id props env limit dir false false fuel w
  = let out := siteOutputPath h props in
    let zp := zipPath h scope id dir in
    let built := build_step h props env (fs w) in
    let log1 :=
      (log w ++ ExistsSync (path props) true :: build_events h props env (fs w))%list in
    if negb (fst built) then
      (Throw (build_problem id),
       {| fs := snd built; log := log1; children := children w |})
    else if negb (exists_in (snd built) out) then
      (Throw (no_build_output id out),
       {| fs := snd built; log := (log1 ++ [ExistsSync out false])%list;
          children := children w |})
    else
      let archived := archive_step h scope id props limit dir (snd built) in
      let log2 :=
        (log1 ++ [ ExistsSync out true; RemoveSync zp;
                   ExecSync (archiverCommand h scope id props limit dir)
                            (path props) (process_env h) (fst archived) ])%list in
      if negb (fst archived) then
        (Throw (package_problem id),
         {| fs := snd archived; log := log2; children := children w |})
      else
        createAssets h zp fuel 0 []
          {| fs := snd archived; log := log2; children := children w |}.
Proof.
  intros Hsite. unfold buildApp. cbn [orb]. unfold bind at 1.
  cbn [existsSync]. rewrite Hsite. cbn [negb]. cbv zeta.
  unfold build_events, build_step, archive_step.
  destruct (buildCommand props) as [cmd |];
    [destruct (Js.truthy (Some cmd)) |];
    unfold bind, try_catch, console_log, emit, execSync, existsSync, removeSync,
      throw, ret;
    cbn [fs log children];
    try (destruct (run h cmd (path props) (Js.spread (process_env h) env) (fs w))
          as [[|] f1]);
    cbn [fst snd negb fs log children];
    rewrite <- ?app_assoc; cbn [List.app]; rewrite ?app_nil_r;
    try reflexivity;
    match goal with
    | |- context [exists_in ?f (siteOutputPath h props)] =>
        destruct (exists_in f (siteOutputPath h props))
    end;
    cbn [fst snd negb fs log children];
    rewrite <- ?app_assoc; cbn [List.app];
    try reflexivity;
    destruct (run h (archiverCommand h scope id props limit dir) _ _ _)
      as [[|] f2];
    cbn [fst snd negb fs log children];
    rewrite <- ?app_assoc; reflexivity.
Qed.

Lemma createAssets_never_throws h zp :
  forall fuel k assets w msg, fst (createAssets h zp fuel k assets w) <> Throw msg.
Proof.
  induction fuel as [| fuel IH]; intros k assets w msg; [discriminate |].
  cbn [createAssets]. unfold bind at 1. cbn [existsSync].
  destruct (exists_in (fs w) (zipFilePath h zp k)); cbn [negb].
  - unfold bind at 1. cbn [new_Asset]. apply IH.
  - discriminate.
Qed.

(** C4, as stated, fails on two counts.  A build output that exists and
    holds no file is not an error: when the archiver exits normally and
    writes no part, [buildApp] returns the empty list of assets.  And when
    the build command fails, the error is the build error, which does not
    name the build output path even though that path does not exist. *)
Lemma empty_build_output_is_not_an_error :
  (exists_in (fs Sample.world_empty_output)
             (siteOutputPath Sample.host Sample.props_prebuilt) = true
   /\ files_below (fs Sample.world_empty_output)
                  (siteOutputPath Sample.host Sample.props_prebuilt) = []
   /\ fst (buildApp Sample.host (Sample.scope false false) "Site"
                    Sample.props_prebuilt [] 200 "/work/.build" false false 5
                    Sample.world_empty_output)
      = Return [])
  /\ (exists_in (fs Sample.world) (siteOutputPath Sample.host Sample.props) = false
      /\ fst (buildApp Sample.host (Sample.scope false false) "Site"
                       Sample.props [("FAIL_BUILD", "{{ FAIL_BUILD }}")] 200
                       "/work/.build" false false 5 Sample.world)
         = Throw (build_problem "Site")
      /\ includes (siteOutputPath Sample.host Sample.props) (build_problem "Site")
         = false).
Proof. vm_compute. repeat split. Qed.

(** C4, amended: with dev mode and skip-build off, [buildApp] throws an
    error naming the resolved site path when the site path does not exist;
    when it exists and the build command fails, it throws the build error;
    when the build step succeeds and the resolved build-output path does
    not exist afterwards, it throws an error naming that path.  Once the
    build output exists there is no error for an empty output: the only
    error left is the packaging error of a failed archiver run, and an
    archiver run that exits normally and leaves no part0.zip gives the
    empty list of assets. *)
Theorem buildApp_failures h scope id props env limit dir fuel w :
  let out := siteOutputPath h props in
  let result := buildApp h scope id props env limit dir false false fuel w in
  let built := build_step h props env (fs w) in
  let archived := archive_step h scope id props limit dir (snd built) in
  (exists_in (fs w) (path props) = false ->
   fst result = Throw (no_path_found h id (path props))
   /\ includes (path_resolve h [path props]) (no_path_found h id (path props)) = true)
  /\ (exists_in (fs w) (path props) = true -> fst built = false ->
      fst result = Throw (build_problem id))
  /\ (exists_in (fs w) (path props) = true -> fst built = true ->
      exists_in (snd built) out = false ->
      fst result = Throw (no_build_output id out)
      /\ includes out (no_build_output id out) = true)
  /\ (exists_in (fs w) (path props) = true -> fst built = true ->
      exists_in (snd built) out = true ->
      (fst archived = false -> fst result = Throw (package_problem id))
      /\ (fst archived = true ->
          exists_in (snd archived) (zipFilePath h (zipPath h scope id dir) 0) = false ->
          0 < fuel -> fst result = Return [])
      /\ (forall msg, fst result = Throw msg -> msg = package_problem id)).
Proof.
  cbv zeta. split; [| split; [| split]].
  - intros Hsite. split.
    + unfold buildApp. cbn [orb]. unfold bind at 1. cbn [existsSync].
      rewrite Hsite. reflexivity.
    + unfold no_path_found, quoted. rewrite !append_assoc.
      apply (includes_middle ("No path found at " ++ dquote)).
  - intros Hsite Hb. rewrite buildApp_unfold by exact Hsite. cbv zeta.
    rewrite Hb. reflexivity.
  - intros Hsite Hb Hout. split.
    + rewrite buildApp_unfold by exact Hsite. cbv zeta.
      rewrite Hb, Hout. reflexivity.
    + unfold no_build_output, quoted. rewrite !append_assoc.
      apply (includes_middle ("No build output found at " ++ dquote)).
  - intros Hsite Hb Hout.
    rewrite buildApp_unfold by exact Hsite. cbv zeta.
    rewrite Hb, Hout. cbn [negb].
    split; [| split].
    + intros Ha. rewrite Ha. reflexivity.
    + intros Ha H0 Hfuel. rewrite Ha. cbn [negb].
      rewrite (createAssets_run h _ 0 fuel 0 []); cbn [fs]; auto.
      intros i Hi. lia.
    + intros msg. destruct (fst (archive_step _ _ _ _ _ _ _)); cbn [negb fst].
      * intros H. exfalso. exact (createAssets_never_throws _ _ _ _ _ _ _ H).
      * intros H. injection H as <-. reflexivity.
Qed.

Lemma buildApp_failures_witness :
  exists_in (fs Sample.world_no_site) (path Sample.props) = false
  /\ fst (buildApp Sample.host (Sample.scope false false) "Site" Sample.props
                   [] 200 "/work/.build" false false 5 Sample.world_no_site)
     = Throw (no_path_found Sample.host "Site" (path Sample.props))
  /\ includes (path_resolve Sample.host [path Sample.props])
              (no_path_found Sample.host "Site" (path Sample.props)) = true.
Proof.
  split; [reflexivity |].
  apply (proj1 (buildApp_failures Sample.host (Sample.scope false false) "Site"
                                  Sample.props [] 200 "/work/.build" 5
                                  Sample.world_no_site)).
  reflexivity.
Defined.

(** ** Dictionary objects *)

Lemma get_set_same k v o : Js.get k (Js.set k v o) = Some v.
Proof.
  induction o as [| [k' v'] o IH]; cbn [Js.set Js.get].
  - now rewrite String.eqb_refl.
  - destruct (k' =? k) eqn:E; cbn [Js.get].
    + now rewrite String.eqb_refl.
    + rewrite E. exact IH.
Qed.

Lemma get_set_other k k' v o : k <> k' -> Js.get k (Js.set k' v o) = Js.get k o.
Proof.
  intros Hne. induction o as [| [k0 v0] o IH]; cbn [Js.set Js.get].
  - destruct (k' =? k) eqn:E; [| reflexivity].
    apply String.eqb_eq in E. congruence.
  - destruct (k0 =? k') eqn:E; cbn [Js.get].
    + apply String.eqb_eq in E. subst k0.
      destruct (k' =? k) eqn:E'; [| reflexivity].
      apply String.eqb_eq in E'. congruence.
    + rewrite IH. reflexivity.
Qed.

Section Assignments.

(** Assigning, for every entry of a list, a value computed from the
    entry to the entry's key. *)
Variable value_of : string * string -> string.

Let assign (o : Js.object) (kv : string * string) : Js.object :=
  Js.set (fst kv) (value_of kv) o.

Lemma get_assign_other k es :
  forall o, ~ In k (map fst es) -> Js.get k (fold_left assign es o) = Js.get k o.
Proof.
  induction es as [| e es IH]; intros o Hk; [reflexivity |].
  cbn [fold_left]. rewrite IH.
  - unfold assign. apply get_set_other. intros ->. apply Hk. now left.
  - intros Hin. apply Hk. now right.
Qed.

Lemma get_assign_in es :
  forall o kv, NoDup (map fst es) -> In kv es ->
               Js.get (fst kv) (fold_left assign es o) = Some (value_of kv).
Proof.
  induction es as [| e es IH]; intros o kv Hnd Hin; [destruct Hin |].
  cbn [map] in Hnd. apply NoDup_cons_iff in Hnd as [Hfresh Hnd].
  cbn [fold_left]. destruct Hin as [-> | Hin].
  - rewrite get_assign_other by exact Hfresh. apply get_set_same.
  - apply IH; assumption.
Qed.

End Assignments.

Lemma get_spread (a b : Js.object) k v :
  NoDup (map fst b) -> In (k, v) b -> Js.get k (Js.spread a b) = Some v.
Proof.
  intros Hnd Hin. unfold Js.spread.
  exact (get_assign_in snd b a (k, v) Hnd Hin).
Qed.

Lemma get_In k v (o : Js.object) : Js.get k o = Some v -> In (k, v) o.
Proof.
  induction o as [| [k' v'] o IH]; cbn [Js.get]; [discriminate |].
  destruct (k' =? k) eqn:E.
  - intros H. injection H as <-. apply String.eqb_eq in E. subst k'. now left.
  - intros H. right. auto.
Qed.

Lemma keys_set_existing k v (o : Js.object) :
  In k (map fst o) -> map fst (Js.set k v o) = map fst o.
Proof.
  induction o as [| [k' v'] o IH]; cbn [Js.set map fst]; [intros [] |].
  intros Hin. destruct (k' =? k) eqn:E; cbn [map fst].
  - apply String.eqb_eq in E. now subst k'.
  - f_equal. apply IH. destruct Hin as [-> | Hin]; [| exact Hin].
    now rewrite String.eqb_refl in E.
Qed.

Lemma keys_of_placeholders (es : Js.object) :
  forall o, incl (map fst es) (map fst o) ->
            map fst (fold_left (fun o kv => Js.set (fst kv) (placeholder (fst kv)) o) es o)
            = map fst o.
Proof.
  induction es as [| e es IH]; intros o Hincl; [reflexivity |].
  cbn [fold_left]. rewrite IH.
  - apply keys_set_existing. apply Hincl. now left.
  - rewrite keys_set_existing by (apply Hincl; now left).
    intros k Hk. apply Hincl. now right.
Qed.

(** After the loop, every key of the environment is bound to its token in
    [this.environment], and so it is in the environment of the build
    command. *)
Lemma build_environment_has_tokens (penv entries : Js.object) key value :
  NoDup (map fst entries) -> In (key, value) entries ->
  Js.get key
    (Js.spread penv
       (fold_left (fun o kv => Js.set (fst kv) (placeholder (fst kv)) o)
                  entries entries))
  = Some (placeholder key).
Proof.
  intros Hnd Hin. apply get_spread.
  - rewrite keys_of_placeholders; [exact Hnd | apply incl_refl].
  - apply get_In.
    exact (get_assign_in (fun kv => placeholder (fst kv)) entries entries
                         (key, value) Hnd Hin).
Qed.

Lemma in_compile key value (entries : list (string * string)) :
  In (key, value) entries ->
  In {| files := "**/*.js"; search := placeholder key; replace := value |}
     (compile entries)
  /\ In {| files := "index.html"; search := placeholder key; replace := value |}
        (compile entries).
Proof.
  intros Hin. unfold compile.
  split; apply in_flat_map; exists (key, value); (split; [exact Hin |]);
    cbn [fst snd In]; auto.
Qed.

(** ** The calls made *)

Lemma bind_snd {A B X : Type} (f : World -> X) (m : M A) (k : A -> M B) w :
  (forall a, preserves f (k a)) -> f (snd (bind m k w)) = f (snd (m w)).
Proof.
  intros Hk. unfold bind. destruct (m w) as [[a | e |] w1]; cbn [snd];
    [apply Hk | reflexivity | reflexivity].
Qed.

Ltac keeps_log :=
  repeat first
    [ progress cbv zeta
    | apply preserves_ret | apply preserves_throw
    | apply preserves_bind; [| intros ?]
    | match goal with
      | |- preserves _ (add_child _) => intros ?; reflexivity
      | |- preserves _ (if ?b then _ else _) => destruct b
      | |- preserves _ (match ?x with _ => _ end) => destruct x
      end ].

(** Everything the constructor does after [buildApp] leaves the log of
    calls alone. *)
Lemma createS3Bucket_keeps_log h props : preserves log (createS3Bucket h props).
Proof. unfold createS3Bucket. keeps_log. Qed.

Lemma createCustomResourceFunction_keeps_log h :
  preserves log (createCustomResourceFunction h).
Proof. unfold createCustomResourceFunction, new_Function. keeps_log. Qed.

Lemma lookupHostedZone_keeps_log h props : preserves log (lookupHostedZone h props).
Proof. unfold lookupHostedZone, fromLookup. keeps_log. Qed.

Lemma createCertificate_keeps_log h props zone :
  preserves log (createCertificate h props zone).
Proof. unfold createCertificate, new_DnsValidatedCertificate. keeps_log. Qed.

Lemma createCfDistribution_keeps_log h props id bucket cert dev dis :
  preserves log (createCfDistribution h props id bucket cert dev dis).
Proof. unfold createCfDistribution. keeps_log. Qed.

Lemma createRoute53Records_keeps_log props zone dist :
  preserves log (createRoute53Records props zone dist).
Proof. unfold createRoute53Records. keeps_log. Qed.

Lemma createS3Deployment_keeps_log props fn assets bucket id dist rules :
  preserves log (createS3Deployment props fn assets bucket id dist rules).
Proof. unfold createS3Deployment. keeps_log. Qed.

Lemma createAssets_log_grows h zp :
  forall fuel k assets w,
    exists rest, log (snd (createAssets h zp fuel k assets w)) = (log w ++ rest)%list.
Proof.
  induction fuel as [| fuel IH]; intros k assets w.
  - exists []. cbn. now rewrite app_nil_r.
  - cbn [createAssets]. unfold bind at 1. cbn [existsSync].
    destruct (exists_in (fs w) (zipFilePath h zp k)); cbn [negb].
    + unfold bind at 1. cbn [new_Asset].
      match goal with
      | |- context [createAssets h zp fuel ?k' ?a' ?w'] =>
          destruct (IH k' a' w') as (rest & ->)
      end.
      cbn [log]. rewrite <- app_assoc. eauto.
    + cbn. eauto.
Qed.

(** The first calls of [buildApp] once the site path exists: the probe of
    the site path and then the build step. *)
Lemma buildApp_log h scope id props env limit dir fuel w :
  exists_in (fs w) (path props) = true ->
  exists rest,
    log (snd (buildApp h scope id props env limit dir false false fuel w))
    = (log w ++ ExistsSync (path props) true :: build_events h props env (fs w)
         ++ rest)%list.
Proof.
  intros Hsite. rewrite buildApp_unfold by exact Hsite. cbv zeta.
  destruct (negb (fst (build_step h props env (fs w)))).
  - exists []. cbn [snd log]. now rewrite app_nil_r.
  - destruct (negb (exists_in _ _)).
    + eexists. cbn [snd log]. rewrite <- app_assoc. cbn [List.app]. reflexivity.
    + destruct (negb (fst (archive_step _ _ _ _ _ _ _))).
      * eexists. cbn [snd log]. rewrite <- app_assoc. cbn [List.app]. reflexivity.
      * match goal with
        | |- context [createAssets h ?zp fuel 0 [] ?w'] =>
            destruct (createAssets_log_grows h zp fuel 0 [] w') as (rest & ->)
        end.
        eexists. cbn [log]. rewrite <- !app_assoc. cbn [List.app]. reflexivity.
Qed.

Lemma validateCustomDomainSettings_pure props w :
  validateCustomDomainSettings props w
  = (fst (validateCustomDomainSettings props w), w)
  /\ forall w0,
       fst (validateCustomDomainSettings props w0)
       = fst (validateCustomDomainSettings props w).
Proof.
  unfold validateCustomDomainSettings.
  destruct (customDomain props) as [[name | d] |]; try (split; reflexivity).
  destruct (is_true (isExternalDomain d)); [| split; reflexivity].
  destruct (negb (Js.defined (certificate d))); [split; reflexivity |].
  destruct (Js.truthy (domainAlias d)); [split; reflexivity |].
  destruct (hostedZone_truthy (hostedZone d)); split; reflexivity.
Qed.

(** C8: when the build command is run, its environment binds every key
    KEY of the [environment] prop to the token "{{ KEY }}", not to the
    declared value; the declared values are in the substitution rules of
    the site. *)
Theorem build_command_sees_placeholders h scope id props fuel w cmd declared :
  environment props = Some declared ->
  local (root scope) = false ->
  skipBuild (root scope) = false ->
  NoDup (map fst declared) ->
  fst (validateCustomDomainSettings props w) = Return tt ->
  exists_in (fs w) (path props) = true ->
  buildCommand props = Some cmd ->
  cmd <> EmptyString ->
  exists env ok outputs rest,
    log (snd (construct h scope id props fuel w))
    = (log w
         ++ [ RegisterSiteEnvironment id (path props) (stack_id scope) outputs;
              ExistsSync (path props) true;
              ConsoleLog ("Building static site " ++ path props);
              ExecSync cmd (path props) env ok ]
         ++ rest)%list
    /\ (forall key value,
          In (key, value) declared ->
          Js.get key env = Some ("{{ " ++ key ++ " }}"))
    /\ (forall site,
          fst (construct h scope id props fuel w) = Return site ->
          forall key value,
            In (key, value) declared ->
            In {| files := "**/*.js"; search := "{{ " ++ key ++ " }}";
                  replace := value |}
               (this_replaceValues site)
            /\ In {| files := "index.html"; search := "{{ " ++ key ++ " }}";
                     replace := value |}
                  (this_replaceValues site)).
Proof.
  intros Henv Hdev Hskip Hnd Hvalid Hsite Hcmd Hne.
  assert (Heq : environment_or_empty props = declared).
  { unfold environment_or_empty. rewrite Henv. reflexivity. }
  clear Henv. subst declared.
  set (env := Js.spread (process_env h)
                (fold_left (fun o kv => Js.set (fst kv) (placeholder (fst kv)) o)
                           (environment_or_empty props)
                           (environment_or_empty props))).
  assert (Htruthy : Js.truthy (Some cmd) = true).
  { cbn. destruct (cmd =? EmptyString) eqn:E; [| reflexivity].
    apply String.eqb_eq in E. contradiction. }
  assert (Hlog : exists ok outputs rest,
             log (snd (construct h scope id props fuel w))
             = (log w
                  ++ [ RegisterSiteEnvironment id (path props) (stack_id scope) outputs;
                       ExistsSync (path props) true;
                       ConsoleLog ("Building static site " ++ path props);
                       ExecSync cmd (path props) env ok ]
                  ++ rest)%list).
  { unfold construct. cbv zeta.
    rewrite (bind_Return _ _ _ _ _ (placeholders_spec _ _ _ _)).
    unfold bind at 1. cbn [emit].
    destruct (validateCustomDomainSettings_pure props w) as (_ & Hsame).
    match goal with
    | |- context [bind (validateCustomDomainSettings props) ?k ?w2] =>
        destruct (validateCustomDomainSettings_pure props w2) as (Hv & _);
        rewrite (Hsame w2), Hvalid in Hv;
        rewrite (bind_Return _ k w2 tt w2 Hv)
    end.
    rewrite Hdev, Hskip.
    rewrite bind_snd.
    2:{ intros assets.
        apply preserves_bind; [apply createS3Bucket_keeps_log | intros bucket].
        apply preserves_bind;
          [apply createCustomResourceFunction_keeps_log | intros fn].
        apply preserves_bind; [apply lookupHostedZone_keeps_log | intros zone].
        apply preserves_bind; [apply createCertificate_keeps_log | intros cert].
        apply preserves_bind; [apply createCfDistribution_keeps_log | intros dist].
        apply preserves_bind; [apply createRoute53Records_keeps_log | intros _].
        apply preserves_bind; [apply createS3Deployment_keeps_log | intros _].
        apply preserves_ret. }
    match goal with
    | |- context [buildApp h scope id props ?e ?l ?d false false fuel ?w3] =>
        destruct (buildApp_log h scope id props e l d fuel w3 Hsite) as (rest & ->)
    end.
    unfold build_events, build_step. rewrite Hcmd, Htruthy.
    cbn [log fs ph_environment ph_environmentOutputs initial_placeholders].
    eexists. eexists. exists rest.
    rewrite <- !app_assoc. cbn [List.app]. reflexivity. }
  destruct Hlog as (ok & outputs & rest & Hlog).
  exists env, ok, outputs, rest. split; [exact Hlog |]. split.
  - intros key value Hin. apply (build_environment_has_tokens _ _ key value Hnd Hin).
  - intros site Hret key value Hin.
    assert (Hc : construct h scope id props fuel w
                 = (Return site, snd (construct h scope id props fuel w))).
    { rewrite <- Hret. apply surjective_pairing. }
    apply construct_Return_inv in Hc
      as (ph & w1 & w2 & w3 & assets & w4 & bucket & w5 & fn & w6 & zone & w7
          & cert & w8 & dist & w9 & w10 & H1 & _ & _ & _ & _ & _ & _ & _ & _
          & _ & _ & ->).
    rewrite placeholders_spec in H1. injection H1 as <- _.
    cbn [this_replaceValues ph_replaceValues].
    destruct (in_compile key value _ Hin) as (Hjs & Hhtml).
    split; apply in_or_app; right; assumption.
Qed.

Lemma build_command_sees_placeholders_witness :
  environment Sample.props = Some [("API_URL", "https://api.example.com")]
  /\ fst (validateCustomDomainSettings Sample.props Sample.world) = Return tt
  /\ exists_in (fs Sample.world) (path Sample.props) = true
  /\ buildCommand Sample.props = Some "npm run build"
  /\ exists env ok outputs rest,
       log (snd (construct Sample.host (Sample.scope false false) "Site"
                           Sample.props 5 Sample.world))
       = (log Sample.world
            ++ [ RegisterSiteEnvironment "Site" (path Sample.props)
                   (stack_id (Sample.scope false false)) outputs;
                 ExistsSync (path Sample.props) true;
                 ConsoleLog ("Building static site " ++ path Sample.props);
                 ExecSync "npm run build" (path Sample.props) env ok ]
            ++ rest)%list
       /\ Js.get "API_URL" env = Some "{{ API_URL }}"
       /\ (forall site,
             fst (construct Sample.host (Sample.scope false false) "Site"
                            Sample.props 5 Sample.world) = Return site ->
             In {| files := "**/*.js"; search := "{{ API_URL }}";
                   replace := "https://api.example.com" |}
                (this_replaceValues site)
             /\ In {| files := "index.html"; search := "{{ API_URL }}";
                      replace := "https://api.example.com" |}
                   (this_replaceValues site)).
Proof.
  split; [reflexivity |]. split; [reflexivity |]. split; [reflexivity |].
  split; [reflexivity |].
  assert (Hnd : NoDup (map fst [("API_URL", "https://api.example.com")])).
  { cbn. apply NoDup_cons; [intros [] | apply NoDup_nil]. }
  destruct (build_command_sees_placeholders
              Sample.host (Sample.scope false false) "Site" Sample.props 5
              Sample.world "npm run build" [("API_URL", "https://api.example.com")]
              eq_refl eq_refl eq_refl Hnd eq_refl eq_refl eq_refl
              ltac:(discriminate))
    as (env & ok & outputs & rest & Hlog & Hget & Hrules).
  exists env, ok, outputs, rest. split; [exact Hlog |]. split.
  - exact (Hget "API_URL" "https://api.example.com" (or_introl eq_refl)).
  - intros site Hsite.
    exact (Hrules site Hsite "API_URL" "https://api.example.com" (or_introl eq_refl)).
Defined.

(** ** Skipping the build *)

(** C9: with skip-build on and dev mode off, [buildApp] returns the stub
    asset alone without probing the file system or running anything,
    whatever the file system holds; a site constructed this way has the stub
    as its only asset, has made no call besides registering its
    environment, and its identifier is "deploy-" followed by the MD5 digest
    of the stub's fingerprint, not "deploy-live"; and an identifier is the
    sentinel "deploy-live" if and only if dev mode is on. *)
Theorem skipBuild_hashes_the_stub h scope id props fuel w site w' :
  skipBuild (root scope) = true ->
  local (root scope) = false ->
  construct h scope id props fuel w = (Return site, w') ->
  let stub := asset_of h (fs w) "Asset" (stubPath h) in
  (forall env limit dir fuel0 w0,
     buildApp h scope id props env limit dir false true fuel0 w0
     = (Return [asset_of h (fs w0) "Asset" (stubPath h)],
        {| fs := fs w0; log := log w0;
           children :=
             (children w0
                ++ [NewAsset (asset_of h (fs w0) "Asset" (stubPath h))])%list |}))
  /\ this_assets site = [stub]
  /\ (exists outputs,
        log w' = (log w ++ [RegisterSiteEnvironment id (path props)
                                                   (stack_id scope) outputs])%list)
  /\ this_deployId site = "deploy-" ++ MD5.hex (fingerprint h (fs w) (stubPath h))
  /\ this_deployId site <> "deploy-live"
  /\ (forall dev assets, deployId dev assets = "deploy-live" <-> dev = true).
Proof.
  intros Hskip Hdev H. cbv zeta.
  split; [intros; apply buildApp_stub |].
  apply construct_Return_inv in H
    as (ph & w1 & w2 & w3 & assets & w4 & bucket & w5 & fn & w6 & zone & w7
        & cert & w8 & dist & w9 & w10 & H1 & H2 & H3 & H4 & H5 & H6 & H7 & H8
        & H9 & H10 & H11 & ->).
  rewrite placeholders_spec in H1. injection H1 as Hph Hw1.
  cbv [emit] in H2. injection H2 as Hw2.
  match type of H3 with
  | validateCustomDomainSettings props ?w0 = _ =>
      destruct (validateCustomDomainSettings_pure props w0) as (Hv & _);
      rewrite Hv in H3
  end.
  injection H3 as _ Hw3.
  rewrite Hskip, Hdev, buildApp_stub in H4. injection H4 as Ha Hw4.
  subst w1 w2 w3 w4 assets. cbn [fs log children] in *.
  cbn [this_assets this_deployId].
  split; [reflexivity |]. split.
  - eexists.
    rewrite (preserves_run _ _ _ _ _ (createS3Deployment_keeps_log _ _ _ _ _ _ _) H11).
    rewrite (preserves_run _ _ _ _ _ (createRoute53Records_keeps_log _ _ _) H10).
    rewrite (preserves_run _ _ _ _ _ (createCfDistribution_keeps_log _ _ _ _ _ _ _) H9).
    rewrite (preserves_run _ _ _ _ _ (createCertificate_keeps_log _ _ _) H8).
    rewrite (preserves_run _ _ _ _ _ (lookupHostedZone_keeps_log _ _) H7).
    rewrite (preserves_run _ _ _ _ _ (createCustomResourceFunction_keeps_log _) H6).
    rewrite (preserves_run _ _ _ _ _ (createS3Bucket_keeps_log _ _) H5).
    cbn [log]. reflexivity.
  - rewrite Hdev. split; [reflexivity |]. split.
    + apply hashed_id_is_not_the_sentinel.
    + apply deployId_sentinel_iff.
Qed.

Lemma skipBuild_hashes_the_stub_witness :
  exists site w',
    construct Sample.host (Sample.scope false true) "Site" Sample.props 5
              Sample.world_no_site = (Return site, w')
    /\ this_assets site
       = [asset_of Sample.host (fs Sample.world_no_site) "Asset"
                   (stubPath Sample.host)]
    /\ this_deployId site
       = "deploy-"
           ++ MD5.hex (fingerprint Sample.host (fs Sample.world_no_site)
                                   (stubPath Sample.host))
    /\ this_deployId site <> "deploy-live".
Proof.
  remember (construct Sample.host (Sample.scope false true) "Site" Sample.props 5
                      Sample.world_no_site) as r eqn:E.
  assert (exists site w', r = (Return site, w')) as (site & w' & Hr).
  { subst r. eexists. eexists. vm_compute. reflexivity. }
  rewrite Hr in E. symmetry in E.
  exists site, w'. split; [exact Hr |].
  destruct (skipBuild_hashes_the_stub
              Sample.host (Sample.scope false true) "Site" Sample.props 5
              Sample.world_no_site site w' eq_refl eq_refl E)
    as (_ & Ha & _ & Hd & Hn & _).
  auto.
Defined.

(** ** Worked examples *)

Example md5_empty : MD5.hex EmptyString = "d41d8cd98f00b204e9800998ecf8427e".
Proof. vm_compute. reflexivity. Qed.

Example md5_abc : MD5.hex "abc" = "900150983cd24fb0d6963f7d28e17f72".
Proof. vm_compute. reflexivity. Qed.

Example md5_two_blocks :
  MD5.hex "12345678901234567890123456789012345678901234567890123456789012345678901234567890"
  = "57edf4a22be3c955ac49da2e2107b67a".
Proof. vm_compute. reflexivity. Qed.

(** Nothing packaged: the identifier is the digest of the empty string. *)
Example deployId_of_no_assets :
  deployId false [] = "deploy-d41d8cd98f00b204e9800998ecf8427e".
Proof. vm_compute. reflexivity. Qed.

(** Skip-build outside dev mode never looks at the site: the constructor
    succeeds on an empty file system, with a hashed identifier. *)
Example skipBuild_on_an_empty_file_system :
  exists site w',
    construct Sample.host (Sample.scope false true) "Site" Sample.props 5
              Sample.world_no_site = (Return site, w')
    /\ log w' = [RegisterSiteEnvironment "Site" "/site" "dev-app-stack"
                   [("API_URL", "FrontendSstStaticSiteEnv_API_URL")]]
    /\ this_deployId site = "deploy-74be16979710d4c4e7c6647856088456".
Proof.
  eexists. eexists. split; [vm_compute; reflexivity |]. split; reflexivity.
Qed.

(** Dev mode: the sentinel, and the build command is not run. *)
Example dev_mode_is_live :
  exists site w',
    construct Sample.host (Sample.scope true false) "Site" Sample.props 5
              Sample.world = (Return site, w')
    /\ this_deployId site = "deploy-live"
    /\ originPath (this_cfDistribution site) = "deploy-live".
Proof.
  eexists. eexists. split; [vm_compute; reflexivity |]. split; reflexivity.
Qed.

(** With too few iterations allowed for the two parts, no result. *)
Example two_parts_need_three_probes :
  fst (construct Sample.host (Sample.scope false false) "Site" Sample.props 2
                 Sample.world) = Diverge.
Proof. vm_compute. reflexivity. Qed.

Example external_domain_without_certificate :
  fst (validateCustomDomainSettings
         (Sample.with_domain (Some (DomainProps (Sample.external_domain None None None))))
         Sample.world)
  = Throw certificate_required.
Proof. reflexivity. Qed.

Example external_domain_with_alias :
  fst (validateCustomDomainSettings
         (Sample.with_domain
            (Some (DomainProps
                     (Sample.external_domain (Some "example.com") None
                        (Some {| certificateArn := "arn:cert" |})))))
         Sample.world)
  = Throw domainAlias_unsupported.
Proof. reflexivity. Qed.

Example external_domain_with_certificate_only :
  fst (validateCustomDomainSettings
         (Sample.with_domain
            (Some (DomainProps
                     (Sample.external_domain None None
                        (Some {| certificateArn := "arn:cert" |})))))
         Sample.world)
  = Return tt.
Proof. reflexivity. Qed.

(** * Further properties of the construct *)

(** ** What each step adds to the construct tree *)

Lemma createAssets_children h zp :
  forall fuel k acc w r w',
    createAssets h zp fuel k acc w = (Return r, w') ->
    exists new,
      r = (acc ++ new)%list
      /\ children w' = (children w ++ map NewAsset new)%list
      /\ fs w' = fs w.
Proof.
  induction fuel as [| fuel IH]; intros k acc w r w' H; [discriminate H |].
  cbn [createAssets] in H. unfold bind at 1 in H. cbn [existsSync] in H.
  destruct (exists_in (fs w) (zipFilePath h zp k)); cbn [negb] in H.
  - unfold bind at 1 in H. cbn [new_Asset] in H.
    apply IH in H as (new & -> & Hc & Hf). cbn [fs children] in Hc, Hf.
    eexists (_ :: new). rewrite <- app_assoc in *. cbn [List.app map] in *.
    split; [reflexivity |]. split; [exact Hc | exact Hf].
  - injection H as <- <-. exists []. cbn. rewrite !app_nil_r. auto.
Qed.

Lemma buildApp_missing_site h scope id props env limit dir fuel w :
  exists_in (fs w) (path props) = false ->
  buildApp h scope id props env limit dir false false fuel w
  = (Throw (no_path_found h id (path props)),
     {| fs := fs w; log := (log w ++ [ExistsSync (path props) false])%list;
        children := children w |}).
Proof.
  intros Hsite. unfold buildApp. cbn [orb]. unfold bind at 1.
  cbn [existsSync]. rewrite Hsite. reflexivity.
Qed.

Lemma buildApp_Return_children h scope id props env limit dir dev skip fuel w
    assets w' :
  buildApp h scope id props env limit dir dev skip fuel w = (Return assets, w') ->
  children w' = (children w ++ map NewAsset assets)%list.
Proof.
  destruct (dev || skip) eqn:Emode.
  - unfold buildApp. rewrite Emode. intros H. cbv [bind new_Asset ret] in H.
    injection H as <- <-. reflexivity.
  - apply orb_false_elim in Emode as [-> ->].
    destruct (exists_in (fs w) (path props)) eqn:Hsite.
    + rewrite buildApp_unfold by exact Hsite. cbv zeta.
      destruct (negb (fst (build_step _ _ _ _))); [discriminate |].
      destruct (negb (exists_in _ _)); [discriminate |].
      destruct (negb (fst (archive_step _ _ _ _ _ _ _))); [discriminate |].
      intros H. apply createAssets_children in H as (new & -> & Hc & _).
      exact Hc.
    + rewrite buildApp_missing_site by exact Hsite. discriminate.
Qed.

Lemma buildApp_Throw_children h scope id props env limit dir dev skip fuel w
    msg w' :
  buildApp h scope id props env limit dir dev skip fuel w = (Throw msg, w') ->
  children w' = children w.
Proof.
  destruct (dev || skip) eqn:Emode.
  - unfold buildApp. rewrite Emode. discriminate.
  - apply orb_false_elim in Emode as [-> ->].
    destruct (exists_in (fs w) (path props)) eqn:Hsite.
    + rewrite buildApp_unfold by exact Hsite. cbv zeta.
      destruct (negb (fst (build_step _ _ _ _)));
        [intros H; injection H as _ <-; reflexivity |].
      destruct (negb (exists_in _ _));
        [intros H; injection H as _ <-; reflexivity |].
      destruct (negb (fst (archive_step _ _ _ _ _ _ _)));
        [intros H; injection H as _ <-; reflexivity |].
      intros H. exfalso.
      eapply createAssets_never_throws. rewrite H. reflexivity.
    + rewrite buildApp_missing_site by exact Hsite.
      intros H. injection H as _ <-. reflexivity.
Qed.

Lemma createS3Bucket_Return h props w b w' :
  createS3Bucket h props w = (Return b, w') ->
  bucket_id b = "Bucket"
  /\ bucketName b = token h "Bucket" "bucketName"
  /\ fs w' = fs w /\ log w' = log w
  /\ children w' = (children w ++ [NewBucket b])%list.
Proof.
  unfold createS3Bucket. cbv zeta.
  destruct (Js.truthy (websiteIndexDocument _)); [discriminate |].
  destruct (Js.truthy (websiteErrorDocument _)); [discriminate |].
  intros H. cbv [bind add_child ret] in H. injection H as <- <-. cbn. auto.
Qed.

Lemma createCustomResourceFunction_spec h w :
  createCustomResourceFunction h w
  = (Return {| function_id := "CustomResourceHandler";
               function_handler := "index.handler";
               function_environment :=
                 [("UPLOADER_FUNCTION_NAME", functionName (uploader h))];
               functionName := token h "CustomResourceHandler" "functionName";
               functionArn := token h "CustomResourceHandler" "functionArn" |},
     {| fs := fs w; log := log w;
        children :=
          (children w
             ++ [ AwsCliLayer "AwsCliLayer";
                  NewFunction (uploader h);
                  NewFunction
                    {| function_id := "CustomResourceHandler";
                       function_handler := "index.handler";
                       function_environment :=
                         [("UPLOADER_FUNCTION_NAME", functionName (uploader h))];
                       functionName := token h "CustomResourceHandler" "functionName";
                       functionArn := token h "CustomResourceHandler" "functionArn" |} ])%list |}).
Proof.
  unfold createCustomResourceFunction, new_Function, uploader.
  cbv [bind add_child ret]. cbn [fs log children functionName].
  rewrite <- !app_assoc. reflexivity.
Qed.

(** The three steps about the hosted zone, the certificate and the DNS
    records always return, and what they return and add does not depend on
    the world they run in. *)
Lemma lookupHostedZone_total h props :
  exists zone zs,
    forall w, lookupHostedZone h props w
              = (Return zone,
                 {| fs := fs w; log := log w; children := (children w ++ zs)%list |}).
Proof.
  unfold lookupHostedZone, fromLookup.
  destruct (customDomain props) as [[name | d] |]; cbn [customDomain_truthy].
  - destruct (name =? EmptyString); cbn [negb];
      eexists; eexists; intros [f l c]; cbv [bind add_child ret]; cbn;
        first [reflexivity | rewrite app_nil_r; reflexivity].
  - cbn [negb].
    destruct (hostedZone d) as [[name | zone] |];
      [| | destruct (is_true (isExternalDomain d))];
      eexists; eexists; intros [f l c]; cbv [bind add_child ret]; cbn;
        first [reflexivity | rewrite app_nil_r; reflexivity].
  - eexists; eexists; intros [f l c]; cbn;
      first [reflexivity | rewrite app_nil_r; reflexivity].
Qed.

Lemma createCertificate_total h props zone :
  exists cert cs,
    forall w, createCertificate h props zone w
              = (Return cert,
                 {| fs := fs w; log := log w; children := (children w ++ cs)%list |}).
Proof.
  unfold createCertificate, new_DnsValidatedCertificate.
  destruct (customDomain props) as [[name | d] |]; cbn [customDomain_truthy].
  - destruct (name =? EmptyString); cbn [negb]; destruct zone;
      eexists; eexists; intros [f l c]; cbv [bind add_child ret]; cbn;
        first [reflexivity | rewrite app_nil_r; reflexivity].
  - cbn [negb]. destruct zone; [destruct (certificate d) |];
      eexists; eexists; intros [f l c]; cbv [bind add_child ret]; cbn;
        first [reflexivity | rewrite app_nil_r; reflexivity].
  - eexists; eexists; intros [f l c]; cbn;
      first [reflexivity | rewrite app_nil_r; reflexivity].
Qed.

Lemma createRoute53Records_total props zone dist :
  exists rs,
    forall w, createRoute53Records props zone dist w
              = (Return tt,
                 {| fs := fs w; log := log w; children := (children w ++ rs)%list |}).
Proof.
  unfold createRoute53Records.
  destruct (customDomain props) as [[name | d] |]; cbn [customDomain_truthy].
  - destruct (name =? EmptyString); cbn [negb]; destruct zone;
      eexists; intros [f l c]; cbv [bind add_child ret]; cbn;
        first [reflexivity | rewrite app_nil_r; reflexivity].
  - cbn [negb]. destruct zone;
      [destruct (domainAlias d) as [alias |];
       [destruct (Js.truthy (Some alias)) |] |];
      eexists; intros [f l c]; cbv [bind add_child ret]; cbn;
        rewrite <- ?app_assoc;
        first [reflexivity | rewrite app_nil_r; reflexivity].
  - eexists; intros [f l c]; cbn;
      first [reflexivity | rewrite app_nil_r; reflexivity].
Qed.

Lemma adds_unique {A : Type} (m : M A) l1 l2 : adds m l1 -> adds m l2 -> l1 = l2.
Proof.
  intros H1 H2.
  specialize (H1 {| fs := []; log := []; children := [] |}).
  specialize (H2 {| fs := []; log := []; children := [] |}).
  rewrite H1 in H2. exact H2.
Qed.

(** Everything a successful constructor adds to the construct tree, in
    the order it adds it. *)
Lemma construct_inventory h scope id props fuel w site w' :
  construct h scope id props fuel w = (Return site, w') ->
  exists zs cs rs,
    adds (lookupHostedZone h props) zs
    /\ adds (createCertificate h props (this_hostedZone site)) cs
    /\ adds (createRoute53Records props (this_hostedZone site)
                                  (this_cfDistribution site)) rs
    /\ children w'
       = (children w
            ++ environment_outputs props
            ++ map NewAsset (this_assets site)
            ++ [ NewBucket (this_s3Bucket site);
                 AwsCliLayer "AwsCliLayer";
                 NewFunction (uploader h);
                 NewFunction (this_customResourceFn site) ]
            ++ zs ++ cs
            ++ [NewDistribution (this_cfDistribution site)]
            ++ rs
            ++ [NewCustomResource "CustomResource" (publish_request site)])%list
    /\ function_handler (this_customResourceFn site) = "index.handler"
    /\ function_environment (this_customResourceFn site)
       = [("UPLOADER_FUNCTION_NAME", functionName (uploader h))].
Proof.
  intros H.
  apply construct_Return_inv in H
    as (ph & w1 & w2 & w3 & assets & w4 & bucket & w5 & fn & w6 & zone & w7
        & cert & w8 & dist & w9 & w10 & H1 & H2 & H3 & H4 & H5 & H6 & H7 & H8
        & H9 & H10 & H11 & ->).
  cbn [this_hostedZone this_cfDistribution this_assets this_s3Bucket
       this_customResourceFn].
  rewrite placeholders_spec in H1. injection H1 as _ Hw1.
  cbv [emit] in H2. injection H2 as Hw2.
  match type of H3 with
  | validateCustomDomainSettings props ?w0 = _ =>
      destruct (validateCustomDomainSettings_pure props w0) as (Hv & _);
      rewrite Hv in H3
  end.
  injection H3 as _ Hw3.
  apply buildApp_Return_children in H4.
  apply createS3Bucket_Return in H5 as (_ & _ & _ & _ & H5).
  rewrite createCustomResourceFunction_spec in H6. injection H6 as Hfn Hw6.
  destruct (lookupHostedZone_total h props) as (z & zs & Hz).
  rewrite Hz in H7. injection H7 as Hzone Hw7. subst z.
  destruct (createCertificate_total h props zone) as (c & cs & Hcs).
  rewrite Hcs in H8. injection H8 as Hcert Hw8. subst c.
  apply createCfDistribution_Return in H9 as (_ & _ & _ & _ & H9).
  destruct (createRoute53Records_total props zone dist) as (rs & Hrs).
  rewrite Hrs in H10. injection H10 as Hw10.
  cbv [createS3Deployment add_child] in H11. injection H11 as Hw'.
  exists zs, cs, rs.
  split; [intros w0; rewrite Hz; reflexivity |].
  split; [intros w0; rewrite Hcs; reflexivity |].
  split; [intros w0; rewrite Hrs; reflexivity |].
  split.
  - subst w' w10. cbn [children]. rewrite H9. subst w8 w7 w6. cbn [children].
    rewrite H5, H4. subst w3 w2 w1 fn. cbn [children].
    unfold environment_outputs, publish_request.
    cbn [this_customResourceFn this_assets this_s3Bucket this_deployId
         this_cfDistribution this_props this_replaceValues].
    rewrite <- !app_assoc. cbn [List.app]. reflexivity.
  - subst fn. split; reflexivity.
Qed.

Lemma select_outputs_nil {X : Type} (pick : Construct -> option X) props :
  (forall id value, pick (CfnOutput id value) = None) ->
  select pick (environment_outputs props) = [].
Proof.
  intros Hp. unfold environment_outputs.
  induction (environment_or_empty props) as [| kv rest IH]; [reflexivity |].
  cbn [map select]. rewrite Hp. exact IH.
Qed.

Lemma select_assets_nil {X : Type} (pick : Construct -> option X) assets :
  (forall a, pick (NewAsset a) = None) -> select pick (map NewAsset assets) = [].
Proof.
  intros Hp. induction assets as [| a rest IH]; [reflexivity |].
  cbn [map select]. rewrite Hp. exact IH.
Qed.

(** ** Validation of the bucket and distribution props *)

(** X1: [createS3Bucket] throws exactly when [s3Bucket.websiteIndexDocument]
    or [s3Bucket.websiteErrorDocument] is set to a non-empty string, with a
    message naming the setting (the index document first) and without
    adding anything to the tree; otherwise it returns a bucket that carries
    the given props and is the one construct it adds. *)
Theorem createS3Bucket_rejects_website_documents h props w :
  ((exists msg, fst (createS3Bucket h props w) = Throw msg)
   <-> (Js.truthy (websiteIndexDocument (s3Bucket_or_empty props)) = true
        \/ Js.truthy (websiteErrorDocument (s3Bucket_or_empty props)) = true))
  /\ (Js.truthy (websiteIndexDocument (s3Bucket_or_empty props)) = true ->
      exists msg, createS3Bucket h props w = (Throw msg, w)
                  /\ includes "s3Bucket.websiteIndexDocument" msg = true)
  /\ (Js.truthy (websiteIndexDocument (s3Bucket_or_empty props)) = false ->
      Js.truthy (websiteErrorDocument (s3Bucket_or_empty props)) = true ->
      exists msg, createS3Bucket h props w = (Throw msg, w)
                  /\ includes "s3Bucket.websiteErrorDocument" msg = true)
  /\ (Js.truthy (websiteIndexDocument (s3Bucket_or_empty props)) = false ->
      Js.truthy (websiteErrorDocument (s3Bucket_or_empty props)) = false ->
      exists bucket,
        createS3Bucket h props w
        = (Return bucket,
           {| fs := fs w; log := log w;
              children := (children w ++ [NewBucket bucket])%list |})
        /\ bucket_props bucket = s3Bucket_or_empty props).
Proof.
  unfold createS3Bucket. cbv zeta. fold (s3Bucket_or_empty props).
  destruct (Js.truthy (websiteIndexDocument (s3Bucket_or_empty props))) eqn:Ei;
    [| destruct (Js.truthy (websiteErrorDocument (s3Bucket_or_empty props))) eqn:Ee].
  - split; [split; [auto | intros _; eexists; reflexivity] |].
    split; [| split; discriminate].
    intros _. eexists. split; [reflexivity | vm_compute; reflexivity].
  - split; [split; [auto | intros _; eexists; reflexivity] |].
    split; [discriminate |]. split; [| discriminate].
    intros _ _. eexists. split; [reflexivity | vm_compute; reflexivity].
  - split; [split; [intros [msg M]; discriminate M | intros [C | C]; discriminate C] |].
    split; [discriminate |]. split; [discriminate |].
    intros _ _. eexists. split; reflexivity.
Qed.

(** X2: [createCfDistribution] throws exactly when the props set
    [cfDistribution.certificate], or set [cfDistribution.domainNames] (an
    empty list included), or set [cfDistribution.errorResponses] together
    with a non-empty [errorPage] while the dev-mode placeholder is not in
    use; when it throws it has added nothing, and in dev mode with the
    placeholder in use the last combination is accepted. *)
Theorem createCfDistribution_rejects_conflicts h props id bucket cert dev dis w :
  ((exists msg, fst (createCfDistribution h props id bucket cert dev dis w) = Throw msg)
   <-> (Js.defined (cf_certificate (cfDistribution_or_empty props)) = true
        \/ Js.defined (cf_domainNames (cfDistribution_or_empty props)) = true
        \/ (dev && negb dis = false
            /\ Js.truthy (errorPage props) = true
            /\ Js.defined (cf_errorResponses (cfDistribution_or_empty props)) = true)))
  /\ (forall msg,
        fst (createCfDistribution h props id bucket cert dev dis w) = Throw msg ->
        snd (createCfDistribution h props id bucket cert dev dis w) = w)
  /\ (Js.defined (cf_certificate (cfDistribution_or_empty props)) = false ->
      Js.defined (cf_domainNames (cfDistribution_or_empty props)) = false ->
      dev && negb dis = true ->
      exists d, fst (createCfDistribution h props id bucket cert dev dis w) = Return d).
Proof.
  unfold createCfDistribution. cbv zeta. fold (cfDistribution_or_empty props).
  destruct (Js.defined (cf_certificate (cfDistribution_or_empty props))) eqn:Ec.
  { split; [split; [auto | intros _; eexists; reflexivity] |].
    split; [intros msg _; reflexivity | discriminate]. }
  destruct (Js.defined (cf_domainNames (cfDistribution_or_empty props))) eqn:Ed.
  { split; [split; [auto | intros _; eexists; reflexivity] |].
    split; [intros msg _; reflexivity | discriminate]. }
  destruct (dev && negb dis) eqn:Em.
  { cbv [bind ret add_child]. cbn [fst snd].
    split; [split; [intros [msg M]; discriminate M
                   | intros [C | [C | (C & _)]]; discriminate C] |].
    split; [discriminate |]. intros _ _ _. eexists. reflexivity. }
  destruct (Js.truthy (errorPage props)) eqn:Ep;
    [destruct (Js.defined (cf_errorResponses (cfDistribution_or_empty props))) eqn:Er |];
    cbv [bind ret add_child throw]; cbn [fst snd].
  - split; [split; [auto | intros _; eexists; reflexivity] |].
    split; [intros msg _; reflexivity | discriminate].
  - split; [split; [intros [msg M]; discriminate M
                   | intros [C | [C | (_ & _ & C)]]; discriminate C] |].
    split; discriminate.
  - split; [split; [intros [msg M]; discriminate M
                   | intros [C | [C | (_ & C & _)]]; discriminate C] |].
    split; discriminate.
Qed.

(** ** The children of [buildApp] *)

(** X7: the only constructs [buildApp] adds are the assets it returns, in
    the order it returns them; when it throws it has added none. *)
Theorem buildApp_adds_its_assets h scope id props env limit dir dev skip fuel w :
  match buildApp h scope id props env limit dir dev skip fuel w with
  | (Return assets, w') => children w' = (children w ++ map NewAsset assets)%list
  | (Throw _, w') => children w' = children w
  | (Diverge, _) => True
  end.
Proof.
  destruct (buildApp h scope id props env limit dir dev skip fuel w)
    as [[assets | msg |] w'] eqn:E.
  - exact (buildApp_Return_children _ _ _ _ _ _ _ _ _ _ _ _ _ E).
  - exact (buildApp_Throw_children _ _ _ _ _ _ _ _ _ _ _ _ _ E).
  - exact I.
Qed.

(** ** The identifier *)

Lemma hexdigit_is_hex (x : Z) : is_hex (MD5.hexdigit x) = true.
Proof.
  unfold MD5.hexdigit. generalize (Z.to_nat x). intros n.
  do 16 (destruct n as [| n]; [reflexivity |]).
  destruct n; reflexivity.
Qed.

Lemma hex_of_bytes_is_hex (bs : list Z) :
  all_chars is_hex (MD5.hex_of_bytes bs) = true.
Proof.
  induction bs as [| b bs IH]; [reflexivity |].
  cbn [MD5.hex_of_bytes all_chars]. now rewrite !hexdigit_is_hex, IH.
Qed.

(** X13: the deployment identifier is either the sentinel "deploy-live",
    in dev mode, or "deploy-" followed by 32 lower-case hexadecimal digits,
    39 characters in all, whatever the assets and however many there are. *)
Theorem deployId_shape (dev : bool) (assets : list Asset) :
  (dev = true -> deployId dev assets = "deploy-live")
  /\ (dev = false ->
      exists digest,
        deployId dev assets = "deploy-" ++ digest
        /\ String.length digest = 32
        /\ all_chars is_hex digest = true
        /\ String.length (deployId dev assets) = 39).
Proof.
  split; intros ->; [reflexivity |].
  exists (assetsHash assets). unfold deployId, assetsHash.
  split; [reflexivity |]. split; [apply hex_length |].
  split; [apply hex_of_bytes_is_hex |].
  change (String.length ("deploy-" ++ ?x)) with (7 + String.length x).
  cbn [String.length append]. rewrite hex_length. reflexivity.
Qed.

(** ** Custom domains *)

Lemma createCfDistribution_Return_fields h props id bucket cert dev dis w d w' :
  createCfDistribution h props id bucket cert dev dis w = (Return d, w') ->
  domainNames d
  = match configured_domain props with Some name => [name] | None => [] end
  /\ dist_certificate d = cert
  /\ distributionDomainName d = token h "Distribution" "distributionDomainName".
Proof.
  unfold createCfDistribution, configured_domain. cbv zeta.
  destruct (Js.defined (cf_certificate _)); [discriminate |].
  destruct (Js.defined (cf_domainNames _)); [discriminate |].
  intros H. apply bind_Return_inv in H as ([] & w1 & _ & H).
  cbv [bind add_child ret] in H. injection H as <- _. cbn.
  destruct (negb (customDomain_truthy (customDomain props)));
    [auto | destruct (customDomain props) as [[name | dp] |]; auto].
Qed.

(** X3: the [customDomainUrl] getter and the distribution agree: the
    distribution has the one domain name whose https URL the getter
    returns, and no domain name when the getter returns nothing, which is
    the case when no custom domain is given and when it is the empty
    string; the distribution's certificate is the one the site keeps. *)
Theorem customDomainUrl_matches_domainNames h scope id props fuel w site w' :
  construct h scope id props fuel w = (Return site, w') ->
  map (append "https://") (domainNames (this_cfDistribution site))
  = match Getters.customDomainUrl site with Some u => [u] | None => [] end
  /\ (Getters.customDomainUrl site = None
      <-> customDomain props = None
          \/ customDomain props = Some (DomainString EmptyString))
  /\ dist_certificate (this_cfDistribution site) = this_acmCertificate site
  /\ Getters.url site = "https://" ++ Getters.distributionDomain site.
Proof.
  intros H.
  apply construct_Return_inv in H
    as (ph & w1 & w2 & w3 & assets & w4 & bucket & w5 & fn & w6 & zone & w7
        & cert & w8 & dist & w9 & w10 & _ & _ & _ & _ & _ & _ & _ & _ & H9
        & _ & _ & ->).
  apply createCfDistribution_Return_fields in H9 as (Hd & Hc & _).
  unfold Getters.customDomainUrl, Getters.url, Getters.distributionDomain.
  cbn [this_cfDistribution this_props this_acmCertificate].
  rewrite Hd. unfold configured_domain.
  destruct (customDomain props) as [[name | dp] |]; cbn [customDomain_truthy negb].
  - destruct (name =? EmptyString) eqn:E; cbn [negb].
    + apply String.eqb_eq in E. subst name.
      repeat split; auto; try discriminate.
    + repeat split; auto; try discriminate.
      intros [C | C]; [discriminate C |]. injection C as ->. discriminate E.
  - repeat split; auto; try discriminate.
    intros [C | C]; discriminate C.
  - repeat split; auto.
Qed.

Lemma customDomainUrl_matches_domainNames_witness :
  exists site w',
    construct Sample.host (Sample.scope false true) "Site"
              (Sample.with_domain (Some (DomainString "www.example.com"))) 5
              Sample.world_no_site = (Return site, w')
    /\ map (append "https://") (domainNames (this_cfDistribution site))
       = ["https://www.example.com"]
    /\ Getters.customDomainUrl site = Some "https://www.example.com".
Proof.
  remember (construct Sample.host (Sample.scope false true) "Site"
                      (Sample.with_domain (Some (DomainString "www.example.com"))) 5
                      Sample.world_no_site) as r eqn:E.
  assert (exists site w', r = (Return site, w')) as (site & w' & Hr).
  { subst r. eexists. eexists. vm_compute. reflexivity. }
  rewrite Hr in E. symmetry in E.
  exists site, w'. split; [exact Hr |].
  destruct (customDomainUrl_matches_domainNames _ _ _ _ _ _ _ _ E) as (Hm & _).
  assert (Hu : Getters.customDomainUrl site = Some "https://www.example.com").
  { pose proof E as E2. vm_compute in E2. injection E2 as <- _. reflexivity. }
  rewrite Hu in Hm. split; [exact Hm | exact Hu].
Defined.

(** X4: for a structured custom domain marked external, with no hosted
    zone given, a constructed site has no hosted zone, looks nothing up in
    Route 53 and creates no DNS record, redirect or validated certificate;
    the certificate it uses, also on the distribution, is the one given,
    which the validation has required. *)
Theorem external_domain_stays_out_of_route53 h scope id props fuel w site w' d :
  customDomain props = Some (DomainProps d) ->
  isExternalDomain d = Some true ->
  hostedZone d = None ->
  construct h scope id props fuel w = (Return site, w') ->
  this_hostedZone site = None
  /\ certificate d <> None
  /\ this_acmCertificate site = certificate d
  /\ dist_certificate (this_cfDistribution site) = certificate d
  /\ domainNames (this_cfDistribution site) = [domainName d]
  /\ select as_dns (children w') = select as_dns (children w).
Proof.
  intros Hcd Hext Hzone H.
  destruct (construct_inventory _ _ _ _ _ _ _ _ H)
    as (zs & cs & rs & Hzs & Hcs & Hrs & Hch & _).
  apply construct_Return_inv in H
    as (ph & w1 & w2 & w3 & assets & w4 & bucket & w5 & fn & w6 & zone & w7
        & cert & w8 & dist & w9 & w10 & _ & _ & H3 & _ & _ & _ & H7 & H8 & H9
        & _ & _ & ->).
  cbn [this_hostedZone this_acmCertificate this_cfDistribution] in *.
  assert (Hc : certificate d <> None).
  { unfold validateCustomDomainSettings in H3. rewrite Hcd, Hext in H3.
    cbn [is_true] in H3. destruct (certificate d); [discriminate |].
    discriminate H3. }
  assert (Hz : zone = None).
  { unfold lookupHostedZone in H7. rewrite Hcd, Hzone, Hext in H7.
    cbn in H7. injection H7 as <- _. reflexivity. }
  subst zone.
  assert (Hcert : cert = certificate d).
  { unfold createCertificate in H8. rewrite Hcd in H8. cbn in H8.
    injection H8 as <- _. reflexivity. }
  subst cert.
  apply createCfDistribution_Return_fields in H9 as (Hd & Hdc & _).
  unfold configured_domain in Hd. rewrite Hcd in Hd. cbn in Hd.
  assert (zs = []) as ->.
  { apply (adds_unique _ _ _ Hzs). intros [f l c].
    unfold lookupHostedZone. rewrite Hcd, Hzone, Hext. cbn.
    now rewrite app_nil_r. }
  assert (cs = []) as ->.
  { apply (adds_unique _ _ _ Hcs). intros [f l c].
    unfold createCertificate. rewrite Hcd. cbn. now rewrite app_nil_r. }
  assert (rs = []) as ->.
  { apply (adds_unique _ _ _ Hrs). intros [f l c].
    unfold createRoute53Records. rewrite Hcd. cbn. now rewrite app_nil_r. }
  repeat split; auto.
  rewrite Hch. rewrite !select_app.
  rewrite select_outputs_nil, select_assets_nil by reflexivity.
  cbn. now rewrite app_nil_r.
Qed.

Lemma external_domain_stays_out_of_route53_witness :
  let d := Sample.external_domain None None (Some {| certificateArn := "arn:cert" |}) in
  exists site w',
    construct Sample.host (Sample.scope false true) "Site"
              (Sample.with_domain (Some (DomainProps d))) 5 Sample.world_no_site
    = (Return site, w')
    /\ this_hostedZone site = None
    /\ this_acmCertificate site = certificate d
    /\ select as_dns (children w') = select as_dns (children Sample.world_no_site).
Proof.
  cbv zeta.
  remember (construct Sample.host (Sample.scope false true) "Site"
              (Sample.with_domain
                 (Some (DomainProps
                          (Sample.external_domain None None
                             (Some {| certificateArn := "arn:cert" |})))))
              5 Sample.world_no_site) as r eqn:E.
  assert (exists site w', r = (Return site, w')) as (site & w' & Hr).
  { subst r. eexists. eexists. vm_compute. reflexivity. }
  rewrite Hr in E. symmetry in E.
  exists site, w'. split; [exact Hr |].
  destruct (external_domain_stays_out_of_route53
              Sample.host (Sample.scope false true) "Site"
              (Sample.with_domain
                 (Some (DomainProps
                          (Sample.external_domain None None
                             (Some {| certificateArn := "arn:cert" |})))))
              5 Sample.world_no_site site w'
              (Sample.external_domain None None
                 (Some {| certificateArn := "arn:cert" |}))
              eq_refl eq_refl eq_refl E)
    as (Hz & _ & Hc & _ & _ & Hs).
  auto.
Defined.

(** X5: for a custom domain given as a non-empty string, a constructed
    site looks up the hosted zone of that name, validates a certificate
    for it by DNS in us-east-1, gives the distribution that name and that
    certificate and adds one alias record for it, and no redirect. *)
Theorem plain_domain_gets_zone_certificate_and_record
    h scope id props fuel w site w' name :
  customDomain props = Some (DomainString name) ->
  name <> EmptyString ->
  construct h scope id props fuel w = (Return site, w') ->
  let zone := {| hostedZoneId := token h "HostedZone" "hostedZoneId";
                 zoneName := name |} in
  let cert := {| certificateArn := token h "Certificate" "certificateArn" |} in
  this_hostedZone site = Some zone
  /\ this_acmCertificate site = Some cert
  /\ dist_certificate (this_cfDistribution site) = Some cert
  /\ domainNames (this_cfDistribution site) = [name]
  /\ select as_dns (children w')
     = (select as_dns (children w)
          ++ [ HostedZoneLookup "HostedZone" name;
               DnsValidatedCertificate "Certificate" name zone "us-east-1";
               ARecord "AliasRecord" name zone
                       (distributionDomainName (this_cfDistribution site)) ])%list.
Proof.
  intros Hcd Hne H. cbv zeta.
  assert (Ht : (name =? EmptyString) = false).
  { destruct (name =? EmptyString) eqn:E; [| reflexivity].
    apply String.eqb_eq in E. contradiction. }
  destruct (construct_inventory _ _ _ _ _ _ _ _ H)
    as (zs & cs & rs & Hzs & Hcs & Hrs & Hch & _).
  apply construct_Return_inv in H
    as (ph & w1 & w2 & w3 & assets & w4 & bucket & w5 & fn & w6 & zone & w7
        & cert & w8 & dist & w9 & w10 & _ & _ & _ & _ & _ & _ & H7 & H8 & H9
        & _ & _ & ->).
  cbn [this_hostedZone this_acmCertificate this_cfDistribution] in *.
  assert (Hz : zone = Some {| hostedZoneId := token h "HostedZone" "hostedZoneId";
                             zoneName := name |}).
  { unfold lookupHostedZone, fromLookup in H7. rewrite Hcd in H7.
    cbn [customDomain_truthy] in H7. rewrite Ht in H7.
    cbv [negb bind add_child ret] in H7. injection H7 as <- _. reflexivity. }
  subst zone.
  assert (Hcert : cert = Some {| certificateArn := token h "Certificate" "certificateArn" |}).
  { unfold createCertificate, new_DnsValidatedCertificate in H8. rewrite Hcd in H8.
    cbn [customDomain_truthy] in H8. rewrite Ht in H8.
    cbv [negb bind add_child ret] in H8. injection H8 as <- _. reflexivity. }
  subst cert.
  apply createCfDistribution_Return_fields in H9 as (Hd & Hdc & _).
  unfold configured_domain in Hd. rewrite Hcd in Hd.
  cbn [customDomain_truthy] in Hd. rewrite Ht in Hd. cbn [negb] in Hd.
  assert (zs = [HostedZoneLookup "HostedZone" name]) as ->.
  { apply (adds_unique _ _ _ Hzs). intros [f l c].
    unfold lookupHostedZone, fromLookup. rewrite Hcd.
    cbn [customDomain_truthy]. rewrite Ht. reflexivity. }
  assert (cs = [DnsValidatedCertificate "Certificate" name
                  {| hostedZoneId := token h "HostedZone" "hostedZoneId";
                     zoneName := name |} "us-east-1"]) as ->.
  { apply (adds_unique _ _ _ Hcs). intros [f l c].
    unfold createCertificate, new_DnsValidatedCertificate. rewrite Hcd.
    cbn [customDomain_truthy]. rewrite Ht. reflexivity. }
  assert (rs = [ARecord "AliasRecord" name
                  {| hostedZoneId := token h "HostedZone" "hostedZoneId";
                     zoneName := name |} (distributionDomainName dist)]) as ->.
  { apply (adds_unique _ _ _ Hrs). intros [f l c].
    unfold createRoute53Records. rewrite Hcd.
    cbn [customDomain_truthy]. rewrite Ht.
    cbv [negb bind add_child ret]. cbn. rewrite <- ?app_assoc. reflexivity. }
  repeat split; auto.
  rewrite Hch. rewrite !select_app.
  rewrite select_outputs_nil, select_assets_nil by reflexivity.
  cbn. reflexivity.
Qed.

Lemma plain_domain_gets_zone_certificate_and_record_witness :
  exists site w',
    construct Sample.host (Sample.scope false true) "Site"
              (Sample.with_domain (Some (DomainString "www.example.com"))) 5
              Sample.world_no_site = (Return site, w')
    /\ domainNames (this_cfDistribution site) = ["www.example.com"]
    /\ List.length (select as_dns (children w')) = 3.
Proof.
  remember (construct Sample.host (Sample.scope false true) "Site"
                      (Sample.with_domain (Some (DomainString "www.example.com"))) 5
                      Sample.world_no_site) as r eqn:E.
  assert (exists site w', r = (Return site, w')) as (site & w' & Hr).
  { subst r. eexists. eexists. vm_compute. reflexivity. }
  rewrite Hr in E. symmetry in E.
  exists site, w'. split; [exact Hr |].
  assert (Hne : "www.example.com" <> EmptyString) by discriminate.
  destruct (plain_domain_gets_zone_certificate_and_record
              Sample.host (Sample.scope false true) "Site"
              (Sample.with_domain (Some (DomainString "www.example.com"))) 5
              Sample.world_no_site site w' "www.example.com" eq_refl Hne E)
    as (_ & _ & _ & Hd & Hs).
  split; [exact Hd |]. rewrite Hs. reflexivity.
Defined.

(** ** Order of validation and build *)

(** X6: when the custom-domain settings are invalid the constructor
    throws the validation error before building anything: the file system
    is untouched, no command is run, and only the environment outputs have
    been added to the tree. *)
Theorem invalid_domain_stops_before_build h scope id props fuel w msg :
  fst (validateCustomDomainSettings props w) = Throw msg ->
  exists outputs,
    construct h scope id props fuel w
    = (Throw msg,
       {| fs := fs w;
          log := (log w ++ [RegisterSiteEnvironment id (path props)
                                                    (stack_id scope) outputs])%list;
          children := (children w ++ environment_outputs props)%list |}).
Proof.
  intros Hv. unfold construct. cbv zeta.
  rewrite (bind_Return _ _ _ _ _ (placeholders_spec _ _ _ _)).
  unfold bind at 1. cbn [emit fs log children].
  destruct (validateCustomDomainSettings_pure props w) as (_ & Hsame).
  match goal with
  | |- context [bind (validateCustomDomainSettings props) ?k ?w2] =>
      destruct (validateCustomDomainSettings_pure props w2) as (Hv2 & _);
      rewrite (Hsame w2), Hv in Hv2;
      rewrite (bind_Throw _ k w2 msg w2 Hv2)
  end.
  eexists. reflexivity.
Qed.

Lemma invalid_domain_stops_before_build_witness :
  let props :=
    Sample.with_domain (Some (DomainProps (Sample.external_domain None None None))) in
  fst (validateCustomDomainSettings props Sample.world) = Throw certificate_required
  /\ exists outputs,
       construct Sample.host (Sample.scope false false) "Site" props 5 Sample.world
       = (Throw certificate_required,
          {| fs := fs Sample.world;
             log := (log Sample.world
                       ++ [RegisterSiteEnvironment "Site" (path props)
                             (stack_id (Sample.scope false false)) outputs])%list;
             children := (children Sample.world ++ environment_outputs props)%list |}).
Proof.
  cbv zeta. split; [reflexivity |].
  apply (invalid_domain_stops_before_build Sample.host (Sample.scope false false)
           "Site" _ 5 Sample.world certificate_required).
  reflexivity.
Defined.

(** ** The construct tree *)

(** X8: a successful constructor adds to the construct tree, in this
    order: one output SstStaticSiteEnv_KEY per entry of the [environment]
    prop, carrying the declared value; its assets; the bucket, the CLI
    layer, the uploader function and the handler function (whose
    environment names the uploader); what the hosted-zone lookup adds for
    the given props; what the certificate step adds; the distribution; what
    the DNS-record step adds; and last the one custom resource. *)
Theorem constructor_inventory h scope id props fuel w site w' :
  construct h scope id props fuel w = (Return site, w') ->
  exists zs cs rs,
    adds (lookupHostedZone h props) zs
    /\ adds (createCertificate h props (this_hostedZone site)) cs
    /\ adds (createRoute53Records props (this_hostedZone site)
                                  (this_cfDistribution site)) rs
    /\ children w'
       = (children w
            ++ map (fun kv => CfnOutput ("SstStaticSiteEnv_" ++ fst kv) (snd kv))
                   (match environment props with Some env => env | None => [] end)
            ++ map NewAsset (this_assets site)
            ++ [ NewBucket (this_s3Bucket site);
                 AwsCliLayer "AwsCliLayer";
                 NewFunction (uploader h);
                 NewFunction (this_customResourceFn site) ]
            ++ zs ++ cs
            ++ [NewDistribution (this_cfDistribution site)]
            ++ rs
            ++ [NewCustomResource "CustomResource" (publish_request site)])%list
    /\ function_handler (this_customResourceFn site) = "index.handler"
    /\ function_environment (this_customResourceFn site)
       = [("UPLOADER_FUNCTION_NAME", functionName (uploader h))].
Proof.
  intros H.
  destruct (construct_inventory h scope id props fuel w site w' H)
    as (zs & cs & rs & Hzs & Hcs & Hrs & Hch & Hh & He).
  exists zs, cs, rs.
  unfold environment_outputs, environment_or_empty in Hch.
  repeat split; assumption.
Qed.

Lemma constructor_inventory_witness :
  exists site w',
    construct Sample.host (Sample.scope false false) "Site" Sample.props 5
              Sample.world = (Return site, w')
    /\ exists zs cs rs,
         adds (lookupHostedZone Sample.host Sample.props) zs
         /\ adds (createCertificate Sample.host Sample.props (this_hostedZone site)) cs
         /\ adds (createRoute53Records Sample.props (this_hostedZone site)
                                       (this_cfDistribution site)) rs
         /\ children w'
            = (children Sample.world
                 ++ [CfnOutput "SstStaticSiteEnv_API_URL" "https://api.example.com"]
                 ++ map NewAsset (this_assets site)
                 ++ [ NewBucket (this_s3Bucket site);
                      AwsCliLayer "AwsCliLayer";
                      NewFunction (uploader Sample.host);
                      NewFunction (this_customResourceFn site) ]
                 ++ zs ++ cs
                 ++ [NewDistribution (this_cfDistribution site)]
                 ++ rs
                 ++ [NewCustomResource "CustomResource" (publish_request site)])%list
         /\ function_handler (this_customResourceFn site) = "index.handler"
         /\ function_environment (this_customResourceFn site)
            = [("UPLOADER_FUNCTION_NAME", functionName (uploader Sample.host))].
Proof.
  remember (construct Sample.host (Sample.scope false false) "Site" Sample.props 5
                      Sample.world) as r eqn:E.
  assert (exists site w', r = (Return site, w')) as (site & w' & Hr).
  { subst r. eexists. eexists. vm_compute. reflexivity. }
  rewrite Hr in E. symmetry in E.
  exists site, w'. split; [exact Hr |].
  exact (constructor_inventory _ _ _ _ _ _ _ _ E).
Defined.

(** ** Parts left by an earlier build *)

Lemma removed_is_gone (zp q : string) (f : FileSystem) :
  prefix (zp ++ "/") q = true ->
  exists_in
    (filter (fun entry => negb (fst entry =? zp) && negb (prefix (zp ++ "/") (fst entry))) f)
    q = false.
Proof.
  intros Hq. unfold exists_in.
  induction f as [| [p c] f IH]; [reflexivity |].
  cbn [filter fst].
  destruct (negb (p =? zp) && negb (prefix (zp ++ "/") p)) eqn:Ek; [| exact IH].
  cbn [existsb fst]. rewrite IH, orb_false_r.
  destruct (p =? q) eqn:Epq; [| reflexivity].
  apply String.eqb_eq in Epq. subst p.
  rewrite Hq in Ek. cbn in Ek. now rewrite andb_false_r in Ek.
Qed.

(** X9: a part file left under the zip path by an earlier build never
    becomes an asset by itself: the zip path is cleared before the archiver
    runs, so when the archiver exits normally and writes nothing, [buildApp]
    returns no asset, whether or not a [part0.zip] was there before. *)
Theorem stale_parts_are_not_packaged h scope id props env limit dir fuel w :
  exists_in (fs w) (path props) = true ->
  fst (build_step h props env (fs w)) = true ->
  exists_in (snd (build_step h props env (fs w))) (siteOutputPath h props) = true ->
  prefix (zipPath h scope id dir ++ "/") (zipFilePath h (zipPath h scope id dir) 0)
  = true ->
  (forall f, run h (archiverCommand h scope id props limit dir) (path props)
                 (process_env h) f = (true, f)) ->
  0 < fuel ->
  fst (buildApp h scope id props env limit dir false false fuel w) = Return [].
Proof.
  intros Hsite Hb Hout Hprefix Hrun Hfuel.
  rewrite buildApp_unfold by exact Hsite. cbv zeta.
  rewrite Hb, Hout. cbn [negb]. unfold archive_step. cbv zeta.
  rewrite Hrun. cbn [fst snd negb].
  rewrite (createAssets_run h _ 0 fuel 0 []); cbn [fs]; auto.
  - intros i Hi. lia.
  - apply removed_is_gone. exact Hprefix.
Qed.

Lemma stale_parts_are_not_packaged_witness :
  exists_in (fs Flat.world_with_stale_part)
            (zipFilePath Flat.host
               (zipPath Flat.host (Sample.scope false false) "Site" "/work/.build") 0)
  = true
  /\ fst (buildApp Flat.host (Sample.scope false false) "Site" Flat.props [] 200
                   "/work/.build" false false 5 Flat.world_with_stale_part)
     = Return [].
Proof.
  split; [reflexivity |].
  apply stale_parts_are_not_packaged;
    [reflexivity | reflexivity | reflexivity | reflexivity
     | intros f; reflexivity | lia].
Defined.

(** ** The loop ends: an instance *)

Lemma append_inj_r (a b s : string) : a ++ s = b ++ s -> a = b.
Proof.
  assert (L : forall x y, String.length (x ++ y) = String.length x + String.length y).
  { induction x as [| c x IHx]; intros y; cbn; [reflexivity | now rewrite IHx]. }
  revert b. induction a as [| c a IH]; intros [| c' b] H; cbn in H.
  - reflexivity.
  - apply (f_equal String.length) in H. cbn in H. rewrite L in H. lia.
  - apply (f_equal String.length) in H. cbn in H. rewrite L in H. lia.
  - injection H as -> H. f_equal. apply IH. exact H.
Qed.

Lemma number_inj (i j : nat) : Js.number i = Js.number j -> i = j.
Proof.
  unfold Js.number. intros H.
  apply (f_equal NilEmpty.uint_of_string) in H.
  rewrite !NilEmpty.usu in H. injection H as H.
  apply Unsigned.to_uint_inj. exact H.
Qed.

Lemma flat_parts_are_distinct (zp : string) (i j : nat) :
  zipFilePath Flat.host zp i = zipFilePath Flat.host zp j -> i = j.
Proof.
  unfold zipFilePath. cbn [path_join Flat.host String.concat]. intros H.
  apply append_inj_l in H. apply (append_inj_l "/") in H.
  apply (append_inj_l "part") in H. apply append_inj_r in H.
  apply number_inj. exact H.
Qed.

Lemma createAssets_terminates_witness :
  (forall i j,
     zipFilePath Flat.host "/zip" i = zipFilePath Flat.host "/zip" j -> i = j)
  /\ exists n,
       n <= List.length (fs Flat.world)
       /\ (forall i, i < n ->
                     exists_in (fs Flat.world) (zipFilePath Flat.host "/zip" i) = true)
       /\ exists_in (fs Flat.world) (zipFilePath Flat.host "/zip" n) = false
       /\ forall fuel, n < fuel ->
            fst (createAssets Flat.host "/zip" fuel 0 [] Flat.world)
            = Return (map (fun i => asset_of Flat.host (fs Flat.world)
                                             ("Asset" ++ Js.number i)
                                             (zipFilePath Flat.host "/zip" i))
                          (seq 0 n)).
Proof.
  split; [exact (flat_parts_are_distinct "/zip") |].
  apply (createAssets_terminates Flat.host "/zip" Flat.world).
  exact (flat_parts_are_distinct "/zip").
Defined.

(** ** The environment after the constructor *)


Lemma set_at (done rest : Js.object) k v0 v :
  ~ In k (map fst done) ->
  Js.set k v (done ++ (k, v0) :: rest)%list = (done ++ (k, v) :: rest)%list.
Proof.
  induction done as [| [k' v'] done IH]; intros Hk; cbn [List.app Js.set].
  - now rewrite String.eqb_refl.
  - destruct (k' =? k) eqn:E.
    + apply String.eqb_eq in E. subst k'. exfalso. apply Hk. now left.
    + f_equal. apply IH. intros Hin. apply Hk. now right.
Qed.

Lemma tokens_in_place (es : Js.object) :
  forall done,
    NoDup (map fst (done ++ es)%list) ->
    fold_left (fun o kv => Js.set (fst kv) (placeholder (fst kv)) o) es
              (done ++ es)%list
    = (done ++ map (fun kv => (fst kv, placeholder (fst kv))) es)%list.
Proof.
  induction es as [| [k v] es IH]; intros done Hnd; [reflexivity |].
  cbn [fold_left fst map].
  rewrite set_at.
  - change (done ++ (k, placeholder k) :: es)%list
      with (done ++ [(k, placeholder k)] ++ es)%list.
    rewrite app_assoc, IH.
    + rewrite <- app_assoc. reflexivity.
    + rewrite <- app_assoc. cbn [List.app].
      rewrite map_app in *. cbn [map fst] in *. exact Hnd.
  - rewrite map_app in Hnd. cbn [map fst] in Hnd.
    apply NoDup_remove_2 in Hnd. intros Hin. apply Hnd.
    apply in_or_app. now left.
Qed.


(** X10: a constructed site's [this.environment] has the keys of the
    [environment] prop, in the same order, each bound to its token
    "{{ KEY }}": every declared value has been overwritten, and the
    environment is empty when the prop is absent. *)
Theorem environment_becomes_tokens h scope id props fuel w site w' :
  NoDup (map fst (match environment props with Some env => env | None => [] end)) ->
  construct h scope id props fuel w = (Return site, w') ->
  this_environment site
  = map (fun kv => (fst kv, "{{ " ++ fst kv ++ " }}"))
        (match environment props with Some env => env | None => [] end).
Proof.
  intros Hnd H.
  apply construct_Return_inv in H
    as (ph & w1 & w2 & w3 & assets & w4 & bucket & w5 & fn & w6 & zone & w7
        & cert & w8 & dist & w9 & w10 & H1 & _ & _ & _ & _ & _ & _ & _ & _
        & _ & _ & ->).
  rewrite placeholders_spec in H1. injection H1 as <- _.
  cbn [this_environment ph_environment initial_placeholders].
  exact (tokens_in_place (environment_or_empty props) [] Hnd).
Qed.

Lemma environment_becomes_tokens_witness :
  NoDup (map fst (match environment Sample.props with
                  | Some env => env
                  | None => []
                  end))
  /\ exists site w',
       construct Sample.host (Sample.scope false false) "Site" Sample.props 5
                 Sample.world = (Return site, w')
       /\ this_environment site = [("API_URL", "{{ API_URL }}")].
Proof.
  assert (Hnd : NoDup (map fst (match environment Sample.props with
                                | Some env => env
                                | None => []
                                end))).
  { cbn. apply NoDup_cons; [intros [] | apply NoDup_nil]. }
  split; [exact Hnd |].
  remember (construct Sample.host (Sample.scope false false) "Site" Sample.props 5
                      Sample.world) as r eqn:E.
  assert (exists site w', r = (Return site, w')) as (site & w' & Hr).
  { subst r. eexists. eexists. vm_compute. reflexivity. }
  rewrite Hr in E. symmetry in E.
  exists site, w'. split; [exact Hr |].
  exact (environment_becomes_tokens Sample.host (Sample.scope false false) "Site"
           Sample.props 5 Sample.world site w' Hnd E).
Defined.

(** ** The log of calls only grows *)







(** ** The environment of the build command *)

Lemma construct_build_log h scope id props fuel w cmd :
  local (root scope) = false ->
  skipBuild (root scope) = false ->
  fst (validateCustomDomainSettings props w) = Return tt ->
  exists_in (fs w) (path props) = true ->
  buildCommand props = Some cmd ->
  cmd <> EmptyString ->
  exists ok outputs rest,
    log (snd (construct h scope id props fuel w))
    = (log w
         ++ [ RegisterSiteEnvironment id (path props) (stack_id scope) outputs;
              ExistsSync (path props) true;
              ConsoleLog ("Building static site " ++ path props);
              ExecSync cmd (path props)
                (Js.spread (process_env h)
                   (fold_left (fun o kv => Js.set (fst kv) (placeholder (fst kv)) o)
                              (environment_or_empty props)
                              (environment_or_empty props)))
                ok ]
         ++ rest)%list.
Proof.
  intros Hdev Hskip Hvalid Hsite Hcmd Hne.
  assert (Htruthy : Js.truthy (Some cmd) = true).
  { cbn. destruct (cmd =? EmptyString) eqn:E; [| reflexivity].
    apply String.eqb_eq in E. contradiction. }
  unfold construct. cbv zeta.
  rewrite (bind_Return _ _ _ _ _ (placeholders_spec _ _ _ _)).
  unfold bind at 1. cbn [emit].
  destruct (validateCustomDomainSettings_pure props w) as (_ & Hsame).
  match goal with
  | |- context [bind (validateCustomDomainSettings props) ?k ?w2] =>
      destruct (validateCustomDomainSettings_pure props w2) as (Hv & _);
      rewrite (Hsame w2), Hvalid in Hv;
      rewrite (bind_Return _ k w2 tt w2 Hv)
  end.
  rewrite Hdev, Hskip.
  rewrite bind_snd.
  2:{ intros assets.
      apply preserves_bind; [apply createS3Bucket_keeps_log | intros bucket].
      apply preserves_bind;
        [apply createCustomResourceFunction_keeps_log | intros fn].
      apply preserves_bind; [apply lookupHostedZone_keeps_log | intros zone].
      apply preserves_bind; [apply createCertificate_keeps_log | intros cert].
      apply preserves_bind; [apply createCfDistribution_keeps_log | intros dist].
      apply preserves_bind; [apply createRoute53Records_keeps_log | intros _].
      apply preserves_bind; [apply createS3Deployment_keeps_log | intros _].
      apply preserves_ret. }
  match goal with
  | |- context [buildApp h scope id props ?e ?l ?d false false fuel ?w3] =>
      destruct (buildApp_log h scope id props e l d fuel w3 Hsite) as (rest & ->)
  end.
  unfold build_events, build_step. rewrite Hcmd, Htruthy.
  cbn [log fs ph_environment ph_environmentOutputs initial_placeholders].
  eexists. eexists. exists rest.
  rewrite <- !app_assoc. cbn [List.app]. reflexivity.
Qed.

(** X12: the build command inherits the process environment: every
    variable whose name is not a key of the declared environment has, in
    the environment of the build command, the value it has in
    [process.env] (or is absent when absent there). *)
Theorem build_environment_inherits_process_env h scope id props fuel w cmd :
  local (root scope) = false ->
  skipBuild (root scope) = false ->
  fst (validateCustomDomainSettings props w) = Return tt ->
  exists_in (fs w) (path props) = true ->
  buildCommand props = Some cmd ->
  cmd <> EmptyString ->
  exists env ok outputs rest,
    log (snd (construct h scope id props fuel w))
    = (log w
         ++ [ RegisterSiteEnvironment id (path props) (stack_id scope) outputs;
              ExistsSync (path props) true;
              ConsoleLog ("Building static site " ++ path props);
              ExecSync cmd (path props) env ok ]
         ++ rest)%list
    /\ forall key,
         ~ In key (map fst (environment_or_empty props)) ->
         Js.get key env = Js.get key (process_env h).
Proof.
  intros Hdev Hskip Hvalid Hsite Hcmd Hne.
  destruct (construct_build_log h scope id props fuel w cmd
              Hdev Hskip Hvalid Hsite Hcmd Hne) as (ok & outputs & rest & Hlog).
  eexists. exists ok, outputs, rest. split; [exact Hlog |].
  intros key Hkey. unfold Js.spread.
  apply (get_assign_other snd).
  rewrite keys_of_placeholders; [exact Hkey | apply incl_refl].
Qed.

Lemma build_environment_inherits_process_env_witness :
  fst (validateCustomDomainSettings Sample.props Sample.world) = Return tt
  /\ exists_in (fs Sample.world) (path Sample.props) = true
  /\ buildCommand Sample.props = Some "npm run build"
  /\ exists env ok outputs rest,
       log (snd (construct Sample.host (Sample.scope false false) "Site"
                           Sample.props 5 Sample.world))
       = (log Sample.world
            ++ [ RegisterSiteEnvironment "Site" (path Sample.props)
                   (stack_id (Sample.scope false false)) outputs;
                 ExistsSync (path Sample.props) true;
                 ConsoleLog ("Building static site " ++ path Sample.props);
                 ExecSync "npm run build" (path Sample.props) env ok ]
            ++ rest)%list
       /\ forall key,
            ~ In key (map fst (environment_or_empty Sample.props)) ->
            Js.get key env = Js.get key (process_env Sample.host).
Proof.
  split; [reflexivity |]. split; [reflexivity |]. split; [reflexivity |].
  apply (build_environment_inherits_process_env
           Sample.host (Sample.scope false false) "Site" Sample.props 5
           Sample.world "npm run build");
    [reflexivity | reflexivity | reflexivity | reflexivity | reflexivity
     | discriminate].
Defined.

(** ** Dev mode *)

(** X14: in dev mode, whatever the skip-build flag, a constructed site has
    not touched the file system and has made no call besides registering
    its environment; its only asset is the stub, and the identifier, the
    origin path of the distribution and the key prefix of the custom
    resource are all "deploy-live". *)
Theorem dev_mode_makes_no_calls h scope id props fuel w site w' :
  local (root scope) = true ->
  construct h scope id props fuel w = (Return site, w') ->
  fs w' = fs w
  /\ (exists outputs,
        log w' = (log w ++ [RegisterSiteEnvironment id (path props)
                                                   (stack_id scope) outputs])%list)
  /\ this_assets site = [asset_of h (fs w) "Asset" (stubPath h)]
  /\ this_deployId site = "deploy-live"
  /\ originPath (this_cfDistribution site) = "deploy-live"
  /\ exists request,
       customResources w' = (customResources w ++ [request])%list
       /\ DestinationBucketKeyPrefix request = "deploy-live".
Proof.
  intros Hdev H.
  pose proof (construct_children _ _ _ _ _ _ _ _ H) as (Hreq & _).
  apply construct_Return_inv in H
    as (ph & w1 & w2 & w3 & assets & w4 & bucket & w5 & fn & w6 & zone & w7
        & cert & w8 & dist & w9 & w10 & H1 & H2 & H3 & H4 & H5 & H6 & H7 & H8
        & H9 & H10 & H11 & ->).
  rewrite placeholders_spec in H1. injection H1 as Hph Hw1.
  cbv [emit] in H2. injection H2 as Hw2.
  match type of H3 with
  | validateCustomDomainSettings props ?w0 = _ =>
      destruct (validateCustomDomainSettings_pure props w0) as (Hv & _);
      rewrite Hv in H3
  end.
  injection H3 as _ Hw3.
  rewrite Hdev in H4, H9 |- *.
  unfold buildApp in H4. cbn [orb] in H4. cbv [bind new_Asset ret] in H4.
  injection H4 as Ha Hw4.
  apply createS3Bucket_Return in H5 as (_ & _ & Hf5 & Hl5 & _).
  rewrite createCustomResourceFunction_spec in H6. injection H6 as _ Hw6.
  destruct (lookupHostedZone_total h props) as (z & zs & Hz).
  rewrite Hz in H7. injection H7 as _ Hw7.
  destruct (createCertificate_total h props zone) as (c & cs & Hcs).
  rewrite Hcs in H8. injection H8 as _ Hw8.
  apply createCfDistribution_Return in H9 as (Ho & _ & Hf9 & Hl9 & _).
  destruct (createRoute53Records_total props zone dist) as (rs & Hrs).
  rewrite Hrs in H10. injection H10 as Hw10.
  cbv [createS3Deployment add_child] in H11. injection H11 as Hw'.
  rewrite Hdev in Hreq.
  cbn [this_assets this_deployId this_cfDistribution deployId].
  split; [| split; [| split; [| split; [| split]]]].
  - subst w' w10. cbn [fs]. rewrite Hf9. subst w8 w7 w6. cbn [fs].
    rewrite Hf5. subst w4 w3 w2 w1. reflexivity.
  - subst w' w10. cbn [log]. rewrite Hl9. subst w8 w7 w6. cbn [log].
    rewrite Hl5. subst w4 w3 w2 w1. cbn [log]. eauto.
  - subst assets w3 w2 w1. reflexivity.
  - reflexivity.
  - exact Ho.
  - eexists. split; [exact Hreq | reflexivity].
Qed.

Lemma dev_mode_makes_no_calls_witness :
  exists site w',
    construct Sample.host (Sample.scope true false) "Site" Sample.props 5
              Sample.world = (Return site, w')
    /\ fs w' = fs Sample.world
    /\ this_deployId site = "deploy-live"
    /\ originPath (this_cfDistribution site) = "deploy-live".
Proof.
  remember (construct Sample.host (Sample.scope true false) "Site" Sample.props 5
                      Sample.world) as r eqn:E.
  assert (exists site w', r = (Return site, w')) as (site & w' & Hr).
  { subst r. eexists. eexists. vm_compute. reflexivity. }
  rewrite Hr in E. symmetry in E.
  exists site, w'. split; [exact Hr |].
  destruct (dev_mode_makes_no_calls Sample.host (Sample.scope true false) "Site"
              Sample.props 5 Sample.world site w' eq_refl E)
    as (Hf & _ & _ & Hd & Ho & _).
  auto.
Defined.

(** ** When the constructor succeeds without a build *)

Lemma settles_ret {A : Type} (a : A) : settles (ret a).
Proof. intros w. discriminate. Qed.

Lemma settles_throw {A : Type} msg : settles (@throw A msg).
Proof. intros w. discriminate. Qed.

Lemma settles_bind {A B : Type} (m : M A) (k : A -> M B) :
  settles m -> (forall a, settles (k a)) -> settles (bind m k).
Proof.
  intros Hm Hk w. unfold bind. specialize (Hm w).
  destruct (m w) as [[a | e |] w1]; cbn [fst] in *;
    [apply Hk | discriminate | now elim Hm].
Qed.

Ltac settle :=
  repeat first
    [ progress cbv zeta
    | apply settles_ret | apply settles_throw
    | apply settles_bind; [| intros ?]
    | match goal with
      | |- settles (add_child _) => intros ?; discriminate
      | |- settles (emit _) => intros ?; discriminate
      | |- settles (new_Asset _ _ _) => intros ?; discriminate
      | |- settles (if ?b then _ else _) => destruct b
      | |- settles (match ?x with _ => _ end) => destruct x
      end ].

Lemma construct_settles_without_build h scope id props fuel :
  local (root scope) || skipBuild (root scope) = true ->
  settles (construct h scope id props fuel).
Proof.
  intros Hmode. unfold construct. cbv zeta.
  apply settles_bind.
  { intros w. rewrite placeholders_spec. discriminate. }
  intros ph. apply settles_bind; [settle |]. intros _.
  apply settles_bind; [unfold validateCustomDomainSettings; settle |]. intros _.
  apply settles_bind; [unfold buildApp; rewrite Hmode; settle |]. intros assets.
  apply settles_bind; [unfold createS3Bucket; settle |]. intros bucket.
  apply settles_bind;
    [unfold createCustomResourceFunction, new_Function; settle |]. intros fn.
  apply settles_bind; [unfold lookupHostedZone, fromLookup; settle |]. intros zone.
  apply settles_bind;
    [unfold createCertificate, new_DnsValidatedCertificate; settle |]. intros cert.
  apply settles_bind; [unfold createCfDistribution; settle |]. intros dist.
  apply settles_bind; [unfold createRoute53Records; settle |]. intros _.
  apply settles_bind; [unfold createS3Deployment; settle |]. intros _.
  apply settles_ret.
Qed.

Lemma createS3Bucket_Return_iff h props w :
  (exists b w', createS3Bucket h props w = (Return b, w'))
  <-> (Js.truthy (websiteIndexDocument (s3Bucket_or_empty props)) = false
       /\ Js.truthy (websiteErrorDocument (s3Bucket_or_empty props)) = false).
Proof.
  unfold createS3Bucket. cbv zeta. fold (s3Bucket_or_empty props).
  destruct (Js.truthy (websiteIndexDocument (s3Bucket_or_empty props)));
    [| destruct (Js.truthy (websiteErrorDocument (s3Bucket_or_empty props)))].
  - split; [intros (b & w' & H); discriminate H | intros [C _]; discriminate C].
  - split; [intros (b & w' & H); discriminate H | intros [_ C]; discriminate C].
  - split; [auto |]. intros _. eexists. eexists. reflexivity.
Qed.

Lemma createCfDistribution_Return_iff h props id bucket cert dev dis w :
  (exists d w', createCfDistribution h props id bucket cert dev dis w = (Return d, w'))
  <-> (Js.defined (cf_certificate (cfDistribution_or_empty props)) = false
       /\ Js.defined (cf_domainNames (cfDistribution_or_empty props)) = false
       /\ (dev && negb dis = true
           \/ Js.truthy (errorPage props) = false
           \/ Js.defined (cf_errorResponses (cfDistribution_or_empty props)) = false)).
Proof.
  unfold createCfDistribution. cbv zeta. fold (cfDistribution_or_empty props).
  destruct (Js.defined (cf_certificate (cfDistribution_or_empty props))).
  { split; [intros (d & w' & H); discriminate H | intros (C & _); discriminate C]. }
  destruct (Js.defined (cf_domainNames (cfDistribution_or_empty props))).
  { split; [intros (d & w' & H); discriminate H | intros (_ & C & _); discriminate C]. }
  destruct (dev && negb dis).
  { split; [auto |]. intros _. eexists. eexists. reflexivity. }
  destruct (Js.truthy (errorPage props)).
  2:{ split; [auto |]. intros _. eexists. eexists. reflexivity. }
  destruct (Js.defined (cf_errorResponses (cfDistribution_or_empty props))).
  - split; [intros (d & w' & H); discriminate H
           | intros (_ & _ & [C | [C | C]]); discriminate C].
  - split; [auto |]. intros _. eexists. eexists. reflexivity.
Qed.

(** X16: in dev mode or with the build skipped the constructor always
    returns or throws, and it returns a site exactly when the three input
    validations pass: the custom-domain settings are valid, the bucket
    props set neither website document, and the distribution props set no
    certificate, no domain names, and no error responses next to an error
    page (the last being allowed in dev mode while the placeholder is in
    use). *)
Theorem stub_mode_succeeds_iff_valid h scope id props fuel w :
  local (root scope) || skipBuild (root scope) = true ->
  ((exists site w', construct h scope id props fuel w = (Return site, w'))
   <-> (fst (validateCustomDomainSettings props w) = Return tt
        /\ Js.truthy (websiteIndexDocument (s3Bucket_or_empty props)) = false
        /\ Js.truthy (websiteErrorDocument (s3Bucket_or_empty props)) = false
        /\ Js.defined (cf_certificate (cfDistribution_or_empty props)) = false
        /\ Js.defined (cf_domainNames (cfDistribution_or_empty props)) = false
        /\ (local (root scope) && negb (disablePlaceholder_or_false props) = true
            \/ Js.truthy (errorPage props) = false
            \/ Js.defined (cf_errorResponses (cfDistribution_or_empty props)) = false)))
  /\ fst (construct h scope id props fuel w) <> Diverge.
Proof.
  intros Hmode. split; [| apply construct_settles_without_build; exact Hmode].
  destruct (validateCustomDomainSettings_pure props w) as (_ & Hsame).
  split.
  - intros (site & w' & H).
    apply construct_Return_inv in H
      as (ph & w1 & w2 & w3 & assets & w4 & bucket & w5 & fn & w6 & zone & w7
          & cert & w8 & dist & w9 & w10 & _ & _ & H3 & _ & H5 & _ & _ & _ & H9
          & _ & _ & _).
    split; [rewrite <- (Hsame w2), H3; reflexivity |].
    assert (Hb := proj1 (createS3Bucket_Return_iff h props w4)
                        (ex_intro _ bucket (ex_intro _ w5 H5))).
    assert (Hd := proj1 (createCfDistribution_Return_iff _ _ _ _ _ _ _ _)
                        (ex_intro _ dist (ex_intro _ w9 H9))).
    tauto.
  - intros (Hv & Hi & He & Hc & Hn & Hr).
    unfold construct. cbv zeta.
    rewrite (bind_Return _ _ _ _ _ (placeholders_spec _ _ _ _)).
    unfold bind at 1. cbn [emit].
    match goal with
    | |- context [bind (validateCustomDomainSettings props) ?k ?w2] =>
        destruct (validateCustomDomainSettings_pure props w2) as (Hv2 & _);
        rewrite (Hsame w2), Hv in Hv2;
        rewrite (bind_Return _ k w2 tt w2 Hv2)
    end.
    unfold buildApp at 1. rewrite Hmode.
    unfold bind at 1. unfold bind at 1. cbn [new_Asset ret].
    match goal with
    | |- context [bind (createS3Bucket h props) ?k ?w4] =>
        destruct (proj2 (createS3Bucket_Return_iff h props w4) (conj Hi He))
          as (b & w5 & H5);
        rewrite (bind_Return _ k w4 b w5 H5)
    end.
    rewrite (bind_Return _ _ _ _ _ (createCustomResourceFunction_spec h w5)).
    destruct (lookupHostedZone_total h props) as (z & zs & Hz).
    rewrite (bind_Return _ _ _ _ _ (Hz _)).
    destruct (createCertificate_total h props z) as (c & cs & Hcs).
    rewrite (bind_Return _ _ _ _ _ (Hcs _)).
    match goal with
    | |- context [bind (createCfDistribution h props ?i ?bk ?ct ?dv ?ds) ?k ?w8] =>
        destruct (proj2 (createCfDistribution_Return_iff h props i bk ct dv ds w8)
                        (conj Hc (conj Hn Hr)))
          as (d & w9 & H9);
        rewrite (bind_Return _ k w8 d w9 H9)
    end.
    destruct (createRoute53Records_total props z d) as (rs & Hrs).
    rewrite (bind_Return _ _ _ _ _ (Hrs _)).
    unfold bind at 1. cbv [createS3Deployment add_child ret].
    eexists. eexists. reflexivity.
Qed.

Lemma stub_mode_succeeds_iff_valid_witness :
  local (root (Sample.scope false true)) || skipBuild (root (Sample.scope false true))
  = true
  /\ exists site w',
       construct Sample.host (Sample.scope false true) "Site" Sample.props 5
                 Sample.world_no_site = (Return site, w').
Proof.
  split; [reflexivity |].
  apply (proj1 (stub_mode_succeeds_iff_valid
                  Sample.host (Sample.scope false true) "Site" Sample.props 5
                  Sample.world_no_site eq_refl)).
  repeat split; try reflexivity. right. left. reflexivity.
Defined.

(** ** How the custom resource is wired *)

Lemma adds_select_nil {A X : Type} (pick : Construct -> option X) (m : M A) l :
  adds m l -> preserves (fun w => select pick (children w)) m -> select pick l = [].
Proof.
  intros Ha Hp.
  specialize (Ha {| fs := []; log := []; children := [] |}).
  specialize (Hp {| fs := []; log := []; children := [] |}).
  cbn beta in Hp. rewrite Ha in Hp. exact Hp.
Qed.

Lemma select_assets (assets : list Asset) :
  select as_asset (map NewAsset assets) = assets.
Proof.
  induction assets as [| a rest IH]; [reflexivity |].
  cbn [map select as_asset]. now rewrite IH.
Qed.

(** X17: the one custom resource of a constructed site is served by the
    handler function the site keeps; its sources are the bucket and key of
    the site's assets, one per asset and in the same order, and these are
    exactly the assets the constructor added to the tree; it writes to the
    bucket the [bucketName] getter names and invalidates the distribution
    the [distributionId] getter names. *)
Theorem custom_resource_is_wired_to_the_site h scope id props fuel w site w' :
  construct h scope id props fuel w = (Return site, w') ->
  select as_asset (children w')
  = (select as_asset (children w) ++ this_assets site)%list
  /\ exists request,
       customResources w' = (customResources w ++ [request])%list
       /\ Sources request
          = map (fun asset => {| BucketName := s3BucketName asset;
                                 ObjectKey := s3ObjectKey asset |})
                (this_assets site)
       /\ serviceToken request = functionArn (this_customResourceFn site)
       /\ DestinationBucketName request = Getters.bucketName site
       /\ DistributionId request = Getters.distributionId site
       /\ List.length (FileOptions request)
          = List.length (match fileOptions props with Some l => l | None => [] end).
Proof.
  intros H.
  pose proof (construct_children _ _ _ _ _ _ _ _ H) as (Hreq & _).
  destruct (construct_inventory _ _ _ _ _ _ _ _ H)
    as (zs & cs & rs & Hzs & Hcs & Hrs & Hch & _).
  assert (Hp : this_props site = props).
  { apply construct_Return_inv in H
      as (ph & w1 & w2 & w3 & assets & w4 & bucket & w5 & fn & w6 & zone & w7
          & cert & w8 & dist & w9 & w10 & _ & _ & _ & _ & _ & _ & _ & _ & _
          & _ & _ & ->).
    reflexivity. }
  split.
  - rewrite Hch, !select_app.
    rewrite select_outputs_nil by reflexivity.
    rewrite select_assets.
    rewrite (adds_select_nil as_asset _ zs Hzs)
      by (apply preserves_lookupHostedZone; reflexivity).
    rewrite (adds_select_nil as_asset _ cs Hcs)
      by (apply preserves_createCertificate; reflexivity).
    rewrite (adds_select_nil as_asset _ rs Hrs)
      by (apply preserves_createRoute53Records; reflexivity).
    cbn. now rewrite !app_nil_r.
  - exists (publish_request site). split; [exact Hreq |].
    unfold publish_request, Getters.bucketName, Getters.distributionId.
    cbn [Sources serviceToken DestinationBucketName DistributionId FileOptions].
    rewrite Hp, length_map. repeat split.
Qed.

Lemma custom_resource_is_wired_to_the_site_witness :
  exists site w',
    construct Sample.host (Sample.scope false false) "Site" Sample.props 5
              Sample.world = (Return site, w')
    /\ select as_asset (children w')
       = (select as_asset (children Sample.world) ++ this_assets site)%list
    /\ List.length (this_assets site) = 2.
Proof.
  remember (construct Sample.host (Sample.scope false false) "Site" Sample.props 5
                      Sample.world) as r eqn:E.
  assert (exists site w', r = (Return site, w')) as (site & w' & Hr).
  { subst r. eexists. eexists. vm_compute. reflexivity. }
  rewrite Hr in E. symmetry in E.
  exists site, w'. split; [exact Hr |].
  destruct (custom_resource_is_wired_to_the_site _ _ _ _ _ _ _ _ E) as (Ha & _).
  split; [exact Ha |].
  pose proof E as E2. vm_compute in E2. injection E2 as <- _. reflexivity.
Defined.

(** * The identifier and differing fingerprints *)

(** ** Counting *)



(** ** Hexadecimal digits and bytes *)









(** ** Two well-formed fingerprints with one digest *)


(** ** The identifier of two builds *)






(** Outside the CDK's format a collision can be written down: two texts
    of 72 characters that differ in one character. *)
Example deployId_of_colliding_texts :
  Sample.text1 <> Sample.text2
  /\ deployId false [Sample.hashed Sample.text1]
     = deployId false [Sample.hashed Sample.text2].
Proof. split; [discriminate | vm_compute; reflexivity]. Qed.
